(** * CMDB Graph RAG demo: the React frontend

    A shallow embedding of the three frontend units of the repository

    - [App]                 (App.jsx: graph state, [handleNewAnswer]),
    - [ChatPanel]           (ChatPanel.jsx: [handleSubmit] and the message list),
    - [GraphVisualization]  (GraphVisualization.jsx: the vis-network effect,
                             [formatNodeTooltip], [darkenColor]),

    over a small model of the JavaScript values an axios JSON response
    carries.  The theorems relate the behaviour of these units to the
    statements of the specification about the response envelope, the order
    of the sources, input validation, error reporting and the loading flag. *)

From Stdlib Require Import ZArith Lia Floats.PrimFloat.
From stdpp Require Import base list relations.
From Stdlib Require Import Strings.String Strings.Ascii.

Local Open Scope list_scope.
Set Warnings "-register-all,-inexact-float".

(** ** JavaScript values *)

Module JS.

(** A JavaScript string is a sequence of UTF-16 code units. *)
Definition jsstring := list N.

(** An ASCII literal of the source as a JavaScript string. *)
Definition str (s : string) : jsstring :=
  map N_of_ascii (list_ascii_of_string s).

#[global] Instance jsstring_eq_dec : EqDecision jsstring.
Proof. unfold jsstring. apply _. Defined.

Definition eqs (a b : jsstring) : bool := bool_decide (a = b).

(** What [JSON.parse] produces, plus [undefined] for a missing property.
    Numbers are IEEE 754 doubles.  An object is the list of its own
    properties in enumeration order; a property read takes the first entry
    with the key. *)
Inductive value :=
| VUndef
| VNull
| VBool (b : bool)
| VNum (n : float)
| VStr (s : jsstring)
| VArr (l : list value)
| VObj (kvs : list (jsstring * value)).

(** A JavaScript completion: a normal result or a thrown exception.  The
    exceptions of the frontend are the [TypeError]s of the engine (reading
    a property of [undefined] or [null], calling a missing method) and
    whatever value a rejected promise carries. *)
Inductive thrown :=
| TypeError
| Rejection (e : value).

Inductive completion (A : Type) :=
| Normal (a : A)
| Throw (e : thrown).
Arguments Normal {A} a.
Arguments Throw {A} e.

#[global] Instance completion_ret : MRet completion := @Normal.
#[global] Instance completion_bind : MBind completion := fun A B k c =>
  match c with
  | Normal a => k a
  | Throw e => Throw e
  end.

(** [arr.map(f)] for a callback that may throw: left to right, the first
    exception aborts; the callback receives the element and its index. *)
Fixpoint map_from {A B} (f : A -> nat -> completion B) (i : nat) (l : list A)
  : completion (list B) :=
  match l with
  | [] => Normal []
  | x :: l' => y ← f x i; ys ← map_from f (S i) l'; Normal (y :: ys)
  end.

(** ToBoolean. *)
Definition ToBoolean (v : value) : bool :=
  match v with
  | VUndef | VNull => false
  | VBool b => b
  | VNum n => negb (PrimFloat.eqb n 0 || PrimFloat.is_nan n)
  | VStr s => negb (eqs s [])
  | VArr _ | VObj _ => true
  end.

(** [a || b] on values. *)
Definition or_else (a b : value) : value := if ToBoolean a then a else b.

Definition nullish (v : value) : bool :=
  match v with VUndef | VNull => true | _ => false end.

Fixpoint lookup_prop (k : jsstring) (kvs : list (jsstring * value)) : value :=
  match kvs with
  | [] => VUndef
  | (k', v) :: rest => if eqs k' k then v else lookup_prop k rest
  end.

(** Whether an object has an own property [k]. *)
Fixpoint has_own (k : jsstring) (kvs : list (jsstring * value)) : bool :=
  match kvs with
  | [] => false
  | (k', _) :: rest => eqs k' k || has_own k rest
  end.

(** [v.k] for the field names the frontend reads by name ([answer],
    [sources], [graph_data], [nodes], ...): none of them is an index, a
    [length] or a prototype property, so only an object has them. *)
Definition get (v : value) (k : jsstring) : completion value :=
  match v with
  | VUndef | VNull => Throw TypeError
  | VObj kvs => Normal (lookup_prop k kvs)
  | _ => Normal VUndef
  end.

(** [v?.k]. *)
Definition get_opt (v : value) (k : jsstring) : value :=
  match v with
  | VObj kvs => lookup_prop k kvs
  | _ => VUndef
  end.

(** [v.length]: a count for arrays and strings, the own property of an
    object, [undefined] for numbers and booleans. *)
Inductive jslength :=
| LenNat (n : nat)
| LenVal (v : value).

Definition get_length (v : value) : completion jslength :=
  match v with
  | VUndef | VNull => Throw TypeError
  | VArr l => Normal (LenNat (List.length l))
  | VStr s => Normal (LenNat (List.length s))
  | VObj kvs => Normal (LenVal (lookup_prop (str "length") kvs))
  | _ => Normal (LenVal VUndef)
  end.

(** The two operations of the engine on numbers that the frontend relies on
    and this development leaves to the engine. *)
Class Engine := {
  Number_toString : float -> jsstring;   (* Number::toString(x, 10) *)
  StringToNumber : jsstring -> float     (* ToNumber applied to a string *)
}.

Section WithEngine.
Context `{Engine}.

(** ToString.  An array joins its elements with a comma, [undefined] and
    [null] elements giving the empty string.  An object is converted by
    its [toString] method: the inherited one gives ["[object Object]"],
    but an own property [toString] of parsed JSON shadows it and is not
    callable, and then the conversion throws a TypeError (the inherited
    [valueOf] returns the object itself, which is no primitive). *)
Fixpoint ToString (v : value) : completion jsstring :=
  match v with
  | VUndef => Normal (str "undefined")
  | VNull => Normal (str "null")
  | VBool true => Normal (str "true")
  | VBool false => Normal (str "false")
  | VNum n => Normal (Number_toString n)
  | VStr s => Normal s
  | VArr l =>
      (fix join (l : list value) : completion jsstring :=
         match l with
         | [] => Normal []
         | x :: l' =>
             s ← (if nullish x then Normal [] else ToString x);
             match l' with
             | [] => Normal s
             | _ => rest ← join l'; Normal (s ++ str "," ++ rest)
             end
         end) l
  | VObj kvs =>
      if has_own (str "toString") kvs then Throw TypeError
      else Normal (str "[object Object]")
  end.

(** ToNumber; an array or an object is first converted as above. *)
Definition ToNumber (v : value) : completion float :=
  match v with
  | VUndef => Normal PrimFloat.nan
  | VNull => Normal 0%float
  | VBool true => Normal 1%float
  | VBool false => Normal 0%float
  | VNum n => Normal n
  | VStr s => Normal (StringToNumber s)
  | _ => s ← ToString v; Normal (StringToNumber s)
  end.

(** [len > 0] and [len === 0]. *)
Definition length_gt_zero (len : jslength) : completion bool :=
  match len with
  | LenNat n => Normal (bool_decide (0 < n)%nat)
  | LenVal v => n ← ToNumber v; Normal (PrimFloat.ltb 0 n)
  end.

Definition length_is_zero (len : jslength) : bool :=
  match len with
  | LenNat n => bool_decide (n = 0)%nat
  | LenVal (VNum n) => PrimFloat.eqb n 0
  | LenVal _ => false
  end.

(** [l !== s] for a string literal [s]. *)
Definition strict_neq_str (l : value) (s : jsstring) : bool :=
  match l with
  | VStr s' => negb (eqs s' s)
  | _ => true
  end.

End WithEngine.

(** [v.map(f)], [v.find(p)]: only arrays have the methods. *)
Definition array_map {B} (f : value -> nat -> completion B) (v : value)
  : completion (list B) :=
  match v with
  | VArr l => map_from f 0 l
  | _ => Throw TypeError
  end.

Definition array_find (p : value -> bool) (v : value) : completion value :=
  match v with
  | VArr l => Normal (default VUndef (List.find p l))
  | _ => Throw TypeError
  end.

(** WhiteSpace and LineTerminator code units of ECMAScript, the characters
    [String.prototype.trim] strips. *)
Definition is_space (c : N) : bool :=
  match c with
  | 9 | 10 | 11 | 12 | 13 | 32 | 160 | 5760
  | 8192 | 8193 | 8194 | 8195 | 8196 | 8197 | 8198 | 8199 | 8200 | 8201 | 8202
  | 8232 | 8233 | 8239 | 8287 | 12288 | 65279 => true
  | _ => false
  end%N.

Fixpoint trim_start (s : jsstring) : jsstring :=
  match s with
  | c :: s' => if is_space c then trim_start s' else s
  | [] => []
  end.

Definition trim (s : jsstring) : jsstring :=
  rev (trim_start (rev (trim_start s))).

(** Decimal digits of a natural number, for array index keys. *)
Fixpoint digits_fuel (fuel n : nat) (acc : jsstring) : jsstring :=
  match fuel with
  | O => acc
  | S fuel' =>
      let acc' := (48 + N.of_nat (n mod 10))%N :: acc in
      if (n / 10 =? 0)%nat then acc' else digits_fuel fuel' (n / 10) acc'
  end.

Definition index_key (n : nat) : jsstring := digits_fuel (S n) n [].

(** [Object.entries(v)]. *)
Definition entries (v : value) : completion (list (jsstring * value)) :=
  match v with
  | VUndef | VNull => Throw TypeError
  | VObj kvs => Normal kvs
  | VArr l => Normal (imap (fun i x => (index_key i, x)) l)
  | VStr s => Normal (imap (fun i c => (index_key i, VStr [c])) s)
  | _ => Normal []
  end.

End JS.

Export JS.
Arguments str s%_string.

(** ** State of the page and its setters *)

Module Page.

(** A chat message: [{type, content, sources}]; [sources] is [undefined] on
    messages built without it. *)
Record message := {
  type : jsstring;
  content : value;
  sources : value
}.

(** The calls a handler makes on React setters, on axios and on the
    console, in program order. *)
Inductive call :=
| CallSetMessages
| CallSetInputValue (s : jsstring)
| CallSetIsLoading (b : bool)
| CallSetGraphData (v : value)
| CallPost (url : jsstring) (body : value)
| CallConsoleError (error : thrown).

(** [useState] cells of [App] ([graphData], [isLoading]) and of [ChatPanel]
    ([messages], [inputValue]), and the calls made so far. *)
Record world := {
  graphData : value;
  isLoading : bool;
  messages : list message;
  inputValue : jsstring;
  calls : list call
}.

Definition M (A : Type) : Type := world -> completion A * world.

#[global] Instance M_ret : MRet M := fun A a w => (Normal a, w).
#[global] Instance M_bind : MBind M := fun A B k m w =>
  match m w with
  | (Normal a, w') => k a w'
  | (Throw e, w') => (Throw e, w')
  end.

Definition lift {A} (c : completion A) : M A := fun w => (c, w).

Definition record_call (c : call) (w : world) : world :=
  {| graphData := graphData w; isLoading := isLoading w; messages := messages w;
     inputValue := inputValue w; calls := calls w ++ [c] |}.

Definition setGraphData (v : value) : M unit := fun w =>
  (Normal (), record_call (CallSetGraphData v)
     {| graphData := v; isLoading := isLoading w; messages := messages w;
        inputValue := inputValue w; calls := calls w |}).

Definition setIsLoading (b : bool) : M unit := fun w =>
  (Normal (), record_call (CallSetIsLoading b)
     {| graphData := graphData w; isLoading := b; messages := messages w;
        inputValue := inputValue w; calls := calls w |}).

(** [setMessages(prev => f(prev))]. *)
Definition setMessages (f : list message -> list message) : M unit := fun w =>
  (Normal (), record_call CallSetMessages
     {| graphData := graphData w; isLoading := isLoading w; messages := f (messages w);
        inputValue := inputValue w; calls := calls w |}).

Definition setInputValue (s : jsstring) : M unit := fun w =>
  (Normal (), record_call (CallSetInputValue s)
     {| graphData := graphData w; isLoading := isLoading w; messages := messages w;
        inputValue := s; calls := calls w |}).

(** [console.error('Error:', error)] *)
Definition console_error (error : thrown) : M unit := fun w =>
  (Normal (), record_call (CallConsoleError error) w).

(** How the promise of [axios.post] settles. *)
Inductive outcome :=
| Resolved (response : value)
| Rejected (error : value).

(** [await promise], inside an async function, for a promise that settles
    as [o]. *)
Definition await (o : outcome) : M value :=
  match o with
  | Resolved response => mret response
  | Rejected error => lift (Throw (Rejection error))
  end.

(** [try { body } catch (error) { handler } finally { fin }]. *)
Definition try_catch_finally {A} (body : M A) (handler : thrown -> M A) (fin : M unit)
  : M A := fun w =>
  let '(r, w1) := body w in
  let '(r', w2) := match r with
                   | Normal a => (Normal a, w1)
                   | Throw e => handler e w1
                   end in
  let '(f, w3) := fin w2 in
  match f with
  | Normal _ => (r', w3)
  | Throw e => (Throw e, w3)
  end.

(** What a component function returns: JSX elements whose children are
    literal text, embedded expressions or further elements. *)
Inductive vnode :=
| Text (s : jsstring)
| Expr (v : value)
| Elem (tag className : jsstring) (key : option nat) (children : list vnode).

End Page.
Export Page.

(** ** ChatPanel.jsx *)

Module ChatPanel.

(** [axios.post(url, body)]. *)
Record request := {
  url : jsstring;
  body : value
}.

Definition fallback_error : jsstring := str "Failed to get answer. Please try again.".

Section Component.
Context `{Engine}.
(** [import.meta.env.VITE_API_URL || 'http://localhost:8000'], and the
    props of the component. *)
Variable API_URL : jsstring.
Variable onNewAnswer : value -> M unit.
Variable setIsLoading : bool -> M unit.

Definition post (r : request) : M unit := fun w =>
  (Normal (), record_call (CallPost (url r) (body r)) w).

(** [handleSubmit] up to its [await]: the guard, the user message, the
    state updates and the call of [axios.post].  The result is the request
    issued, or [None] when the guard returned. *)
Definition handleSubmit_start (question : jsstring) : M (option request) :=
  if negb (ToBoolean (VStr (trim question))) then mret None
  else
    let userMessage :=
      {| type := str "user"; content := VStr question; sources := VUndef |} in
    setMessages (fun prev => prev ++ [userMessage]);;
    setInputValue [];;
    setIsLoading true;;
    let r := {| url := API_URL ++ str "/ask";
                body := VObj [(str "question", VStr question)] |} in
    post r;;
    mret (Some r).

(** [error.response] in the catch clause. *)
Definition error_response (error : thrown) : completion value :=
  match error with
  | TypeError => Normal VUndef
  | Rejection e => get e (str "response")
  end.

(** [handleSubmit] from the moment the promise of [axios.post] settles. *)
Definition handleSubmit_resume (o : outcome) : M unit :=
  try_catch_finally
    (response ← await o;
     answerData ← lift (get response (str "data"));
     answer ← lift (get answerData (str "answer"));
     srcs ← lift (get answerData (str "sources"));
     let assistantMessage :=
       {| type := str "assistant"; content := answer; sources := srcs |} in
     setMessages (fun prev => prev ++ [assistantMessage]);;
     onNewAnswer answerData)
    (fun error =>
     console_error error;;
     response ← lift (error_response error);
     let detail := get_opt (get_opt response (str "data")) (str "detail") in
     let errorMessage :=
       {| type := str "error";
          content := or_else detail (VStr fallback_error);
          sources := VUndef |} in
     setMessages (fun prev => prev ++ [errorMessage]))
    (setIsLoading false).

(** One run of [handleSubmit] with nothing else happening while the request
    is in flight. *)
Definition handleSubmit (question : jsstring) (o : outcome) : M unit :=
  r ← handleSubmit_start question;
  match r with
  | None => mret ()
  | Some _ => handleSubmit_resume o
  end.

(** [<li key={idx}>{source.type}: {source.name}</li>] *)
Definition render_source (source : value) (idx : nat) : completion vnode :=
  ty ← get source (str "type");
  name ← get source (str "name");
  Normal (Elem (str "li") [] (Some idx) [Expr ty; Text (str ": "); Expr name]).

(** [{message.sources && message.sources.length > 0 && (<div ...>)}] *)
Definition render_sources (srcs : value) : completion vnode :=
  if negb (ToBoolean srcs) then Normal (Expr srcs)
  else
    len ← get_length srcs;
    positive ← length_gt_zero len;
    if negb positive then Normal (Expr (VBool false))
    else
      items ← array_map render_source srcs;
      Normal (Elem (str "div") (str "message-sources") None
                [Elem (str "strong") [] None [Text (str "Sources:")];
                 Elem (str "ul") [] None items]).

Definition render_message (message : message) (index : nat) : completion vnode :=
  block ← render_sources (sources message);
  Normal (Elem (str "div") (str "message " ++ type message) (Some index)
            [Elem (str "div") (str "message-content") None [Expr (content message)];
             block]).

(** [messages.map((message, index) => ...)] *)
Definition render_messages (msgs : list message) : completion (list vnode) :=
  map_from render_message 0 msgs.

End Component.
End ChatPanel.

(** ** App.jsx *)

Module App.

Definition handleNewAnswer (answerData : value) : M unit :=
  graph_data ← lift (get answerData (str "graph_data"));
  if ToBoolean graph_data then setGraphData graph_data else mret ().

Section Wiring.
Context `{Engine}.
Variable API_URL : jsstring.

(** [<ChatPanel onNewAnswer={handleNewAnswer} setIsLoading={setIsLoading} />] *)
Definition handleSubmit_start := ChatPanel.handleSubmit_start API_URL setIsLoading.
Definition handleSubmit_resume := ChatPanel.handleSubmit_resume handleNewAnswer setIsLoading.
Definition handleSubmit := ChatPanel.handleSubmit API_URL handleNewAnswer setIsLoading.

(** The page between events: the state cells and the requests to [/ask]
    that have not settled yet. *)
Record system := {
  ui : world;
  in_flight : list ChatPanel.request
}.

Definition initial : system :=
  {| ui := {| graphData := VNull; isLoading := false; messages := [];
              inputValue := []; calls := [] |};
     in_flight := [] |}.

Definition welcome : message :=
  {| type := str "system";
     content := VStr (str "Welcome! Ask me anything about your CMDB infrastructure.");
     sources := VUndef |}.

Definition submit (question : jsstring) (s : system) : system :=
  match handleSubmit_start question (ui s) with
  | (Normal (Some r), w) => {| ui := w; in_flight := in_flight s ++ [r] |}
  | (_, w) => {| ui := w; in_flight := in_flight s |}
  end.

Definition settle (i : nat) (o : outcome) (s : system) : system :=
  {| ui := (handleSubmit_resume o (ui s)).2; in_flight := delete i (in_flight s) |}.

(** The events of the page: the mount effect of [ChatPanel], typing into
    the input, a submission (Enter, the Send button or an example), and a
    pending request settling. *)
Inductive step : system -> system -> Prop :=
| step_mount s :
    step s {| ui := (setMessages (fun _ => [welcome]) (ui s)).2; in_flight := in_flight s |}
| step_change s text :
    step s {| ui := (setInputValue text (ui s)).2; in_flight := in_flight s |}
| step_submit s question :
    step s (submit question s)
| step_settle s i o :
    i < List.length (in_flight s) ->
    step s (settle i o s).

Definition reachable (s : system) : Prop := rtc step initial s.

End Wiring.
End App.

(** ** GraphVisualization.jsx *)

Module GraphVisualization.

(** Color and shape mapping for the node types. *)
Definition colorMap : list (jsstring * jsstring) :=
  [(str "Asset", str "#4CAF50"); (str "Service", str "#2196F3");
   (str "User", str "#FF9800"); (str "Location", str "#9C27B0");
   (str "Node", str "#757575")].

Definition shapeMap : list (jsstring * jsstring) :=
  [(str "Asset", str "box"); (str "Service", str "ellipse");
   (str "User", str "circle"); (str "Location", str "diamond");
   (str "Node", str "dot")].

(** The property names an object literal inherits from [Object.prototype]. *)
Definition object_prototype_keys : list jsstring :=
  [str "constructor"; str "__defineGetter__"; str "__defineSetter__";
   str "hasOwnProperty"; str "__lookupGetter__"; str "__lookupSetter__";
   str "isPrototypeOf"; str "propertyIsEnumerable"; str "toString";
   str "valueOf"; str "__proto__"; str "toLocaleString"].

(** [map[key] || map['Node']] on one of the two literals: the own entry,
    the default for a key the literal lacks, and [None] for a key found on
    the prototype, whose value is a function or an object, not a string. *)
Fixpoint own_entry (key : jsstring) (map : list (jsstring * jsstring)) : option jsstring :=
  match map with
  | [] => None
  | (k, v) :: rest => if eqs k key then Some v else own_entry key rest
  end.

Definition map_or_default (map : list (jsstring * jsstring)) (key : jsstring)
  : option jsstring :=
  match own_entry key map with
  | Some v => if eqs v [] then own_entry (str "Node") map else Some v
  | None =>
      if bool_decide (key ∈ object_prototype_keys) then None
      else own_entry (str "Node") map
  end.

(** *** darkenColor *)

Definition hex_value (c : N) : option Z :=
  if (48 <=? c)%N && (c <=? 57)%N then Some (Z.of_N c - 48)%Z
  else if (97 <=? c)%N && (c <=? 102)%N then Some (Z.of_N c - 87)%Z
  else if (65 <=? c)%N && (c <=? 70)%N then Some (Z.of_N c - 55)%Z
  else None.

(** The longest prefix of hexadecimal digits, as a number; [None] when
    there is no digit. *)
Fixpoint hex_prefix (acc : option Z) (s : jsstring) : option Z :=
  match s with
  | [] => acc
  | c :: s' =>
      match hex_value c with
      | Some d => hex_prefix (Some (16 * default 0%Z acc + d)%Z) s'
      | None => acc
      end
  end.

(** [parseInt(s, 16)]; [None] is NaN. *)
Definition parseInt16 (s : jsstring) : option Z :=
  let s := trim_start s in
  let '(sign, s) :=
    match s with
    | 45%N :: s' => ((-1)%Z, s')
    | 43%N :: s' => (1%Z, s')
    | _ => (1%Z, s)
    end in
  let s :=
    match s with
    | 48%N :: 120%N :: s' | 48%N :: 88%N :: s' => s'
    | _ => s
    end in
  z ← hex_prefix None s; Some (sign * z)%Z.

Fixpoint hex_digits (fuel : nat) (z : Z) (acc : jsstring) : jsstring :=
  match fuel with
  | O => acc
  | S fuel' =>
      let d := (z mod 16)%Z in
      let c := Z.to_N (if (d <? 10)%Z then 48 + d else 87 + d)%Z in
      if (z / 16 =? 0)%Z then c :: acc else hex_digits fuel' (z / 16)%Z (c :: acc)
  end.

(** [x.toString(16)] for the values [Math.max(0, ...)] produces: a
    non-negative integer or NaN. *)
Definition toString16 (x : option Z) : jsstring :=
  match x with
  | None => str "NaN"
  | Some z => hex_digits (S (Z.to_nat z)) z []
  end.

(** [s.padStart(2, '0')] *)
Definition padStart2 (s : jsstring) : jsstring :=
  repeat 48%N (2 - List.length s) ++ s.

(** [s.replace('#', '')]: the first occurrence only. *)
Fixpoint remove_hash (s : jsstring) : jsstring :=
  match s with
  | [] => []
  | c :: s' => if (c =? 35)%N then s' else c :: remove_hash s'
  end.

(** [s.substr(start, 2)] *)
Definition substr2 (start : nat) (s : jsstring) : jsstring := take 2 (drop start s).

(** [Math.max(0, parseInt(h, 16) - 30)] *)
Definition darker_channel (h : jsstring) : option Z :=
  z ← parseInt16 h; Some (Z.max 0 (z - 30)).

Definition darkenColor (color : jsstring) : jsstring :=
  let hex := remove_hash color in
  let r := darker_channel (substr2 0 hex) in
  let g := darker_channel (substr2 2 hex) in
  let b := darker_channel (substr2 4 hex) in
  str "#" ++ padStart2 (toString16 r) ++ padStart2 (toString16 g) ++ padStart2 (toString16 b).

(** *** The vis-network data *)

Record vis_color := {
  background : jsstring;
  border : jsstring;
  highlight_background : jsstring;
  highlight_border : jsstring
}.

Record vis_node := {
  id : value;
  label : value;
  title : jsstring;
  color : vis_color;
  shape : jsstring;
  font_color : jsstring;
  font_size : Z;
  font_face : jsstring;
  borderWidth : Z;
  borderWidthSelected : Z
}.

Record vis_edge := {
  edge_id : nat;
  from : value;
  to : value;
  edge_label : value;
  arrows : jsstring;
  edge_color : jsstring;
  edge_highlight : jsstring;
  edge_font_size : Z;
  edge_font_align : jsstring;
  edge_font_background : jsstring;
  smooth_type : jsstring;
  smooth_roundness : float
}.

Record vis_data := {
  nodes : list vis_node;
  edges : list vis_edge
}.

(** [containerRef.current] is set once the [div] is mounted;
    [networkRef.current] holds the [Network], here the data it displays. *)
Record refs := {
  container : bool;
  network : option vis_data
}.

Section Component.
Context `{Engine}.

(** [node.labels.find(l => l !== 'Node') || 'Node'] *)
Definition primary_label (node : value) : completion value :=
  labels ← get node (str "labels");
  found ← array_find (fun l => strict_neq_str l (str "Node")) labels;
  Normal (or_else found (VStr (str "Node"))).

(** [`${key}: ${value}`] *)
Definition tooltip_line (entry : jsstring * value) : completion jsstring :=
  text ← ToString entry.2;
  Normal (entry.1 ++ str ": " ++ text).

Definition shown_in_tooltip (entry : jsstring * value) : bool :=
  negb (eqs entry.1 (str "embedding")) && negb (eqs entry.1 (str "description")).

(** [lines.join('<br/>')] *)
Fixpoint join_br (lines : list jsstring) : jsstring :=
  match lines with
  | [] => []
  | [l] => l
  | l :: rest => l ++ str "<br/>" ++ join_br rest
  end.

(** The loop over [Object.entries(props)]: the lines pushed, in order. *)
Fixpoint property_lines (es : list (jsstring * value)) : completion (list jsstring) :=
  match es with
  | [] => Normal []
  | entry :: rest =>
      if shown_in_tooltip entry
      then line ← tooltip_line entry;
           lines ← property_lines rest;
           Normal (line :: lines)
      else property_lines rest
  end.

Definition tooltip_lines (node : value) : completion (list jsstring) :=
  label ← primary_label node;
  props ← get node (str "properties");
  header ← ToString label;
  es ← entries props;
  lines ← property_lines es;
  Normal ((str "<b>" ++ header ++ str "</b>") :: lines).

Definition formatNodeTooltip (node : value) : completion jsstring :=
  lines ← tooltip_lines node;
  Normal (join_br lines).

(** The callback of [nodes.map]. *)
Definition visNode (node : value) (_ : nat) : completion vis_node :=
  label ← primary_label node;
  key ← ToString label;
  let color := map_or_default colorMap key in
  let shape := map_or_default shapeMap key in
  props ← get node (str "properties");
  name_prop ← get props (str "name");
  let name := or_else name_prop (VStr (str "Unknown")) in
  node_id ← get node (str "id");
  tooltip ← formatNodeTooltip node;
  match color, shape with
  | Some color, Some shape =>
      Normal {| id := node_id;
                label := name;
                title := tooltip;
                color := {| background := color;
                            border := darkenColor color;
                            highlight_background := color;
                            highlight_border := darkenColor color |};
                shape := shape;
                font_color := str "#ffffff";
                font_size := 14;
                font_face := str "Arial";
                borderWidth := 2;
                borderWidthSelected := 3 |}
  | _, _ => Throw TypeError  (* darkenColor: [color.replace] is not a function *)
  end.

(** The callback of [relationships.map]. *)
Definition visEdge (rel : value) (idx : nat) : completion vis_edge :=
  source ← get rel (str "source");
  target ← get rel (str "target");
  ty ← get rel (str "type");
  Normal {| edge_id := idx;
            from := source;
            to := target;
            edge_label := ty;
            arrows := str "to";
            edge_color := str "#848484";
            edge_highlight := str "#333333";
            edge_font_size := 11;
            edge_font_align := str "middle";
            edge_font_background := str "rgba(255, 255, 255, 0.8)";
            smooth_type := str "curvedCW";
            smooth_roundness := 0.2%float |}.

Definition visNodes (nodes : value) : completion (list vis_node) := array_map visNode nodes.
Definition visEdges (relationships : value) : completion (list vis_edge) :=
  array_map visEdge relationships.

(** The effect that runs when [graphData] changes.  It returns whether a
    cleanup was registered, and the refs.  (The constant [options] literal
    and the click handler, which only writes the clicked node to the
    console, are left out.) *)
Definition effect (graphData : value) (r : refs) : completion (bool * refs) :=
  if negb (ToBoolean graphData) || negb (container r) then Normal (false, r)
  else
    nodes ← get graphData (str "nodes");
    relationships ← get graphData (str "relationships");
    if negb (ToBoolean nodes) then Normal (false, r)
    else
      len ← get_length nodes;
      if length_is_zero len then Normal (false, r)
      else
        vns ← visNodes nodes;
        ves ← visEdges relationships;
        let data := {| nodes := vns; edges := ves |} in
        (* [setData(data)] on the existing network, or [new Network(...)] *)
        Normal (true, {| container := container r; network := Some data |}).

(** The cleanup the effect returns: [destroy()] and reset of the ref. *)
Definition cleanup (r : refs) : refs :=
  {| container := container r; network := None |}.

End Component.
End GraphVisualization.

(** ** The envelope of the specification *)

Module Envelope.
Import App GraphVisualization.

(** A layout lists the field names kept of an object and what is kept of
    each field's value. *)
Definition layout := list (jsstring * (value -> value)).

Fixpoint assoc (k : jsstring) (sh : layout) : option (value -> value) :=
  match sh with
  | [] => None
  | (k', f) :: rest => if eqs k' k then Some f else assoc k rest
  end.

Fixpoint keep_fields (sh : layout) (kvs : list (jsstring * value))
  : list (jsstring * value) :=
  match kvs with
  | [] => []
  | (k, v) :: rest =>
      match assoc k sh with
      | Some f => (k, f v) :: keep_fields sh rest
      | None => keep_fields sh rest
      end
  end.

(** An object cut down to the fields of the layout; other values as they are. *)
Definition restrict (sh : layout) (v : value) : value :=
  match v with
  | VObj kvs => VObj (keep_fields sh kvs)
  | _ => v
  end.

Definition each (f : value -> value) (v : value) : value :=
  match v with
  | VArr l => VArr (map f l)
  | _ => v
  end.

Definition whole (v : value) : value := v.

(** The envelope of the specification:
    [{question, answer, sources: [{name, type, properties}],
      graph_data: {nodes: [{id, labels, properties}],
                   relationships: [{source, target, type}]}}]. *)
Definition node_layout : layout :=
  [(str "id", whole); (str "labels", whole); (str "properties", whole)].
Definition relationship_layout : layout :=
  [(str "source", whole); (str "target", whole); (str "type", whole)].
Definition graph_layout : layout :=
  [(str "nodes", each (restrict node_layout));
   (str "relationships", each (restrict relationship_layout))].
Definition source_layout : layout :=
  [(str "name", whole); (str "type", whole); (str "properties", whole)].
Definition envelope_layout : layout :=
  [(str "question", whole); (str "answer", whole);
   (str "sources", each (restrict source_layout));
   (str "graph_data", restrict graph_layout)].

(** The part of the envelope the frontend reads: all of it but the
    [question] of the response and the [properties] of the sources. *)
Definition read_source_layout : layout := [(str "name", whole); (str "type", whole)].
Definition read_layout : layout :=
  [(str "answer", whole);
   (str "sources", each (restrict read_source_layout));
   (str "graph_data", restrict graph_layout)].

(** A payload without the field at the end of a path of field names; the
    path goes through objects and through the entries of lists of
    objects. *)
Definition path := list jsstring.

Fixpoint remove_key (k : jsstring) (kvs : list (jsstring * value))
  : list (jsstring * value) :=
  match kvs with
  | [] => []
  | (k', v) :: rest =>
      if eqs k' k then remove_key k rest else (k', v) :: remove_key k rest
  end.

Definition update_field (k : jsstring) (f : value -> value)
    (kvs : list (jsstring * value)) : list (jsstring * value) :=
  map (fun kv => if eqs kv.1 k then (kv.1, f kv.2) else kv) kvs.

Fixpoint without (p : path) (v : value) : value :=
  match p with
  | [] => v
  | k :: rest =>
      let at_object (o : value) : value :=
        match o with
        | VObj kvs =>
            VObj (match rest with
                  | [] => remove_key k kvs
                  | _ => update_field k (without rest) kvs
                  end)
        | _ => o
        end in
      match v with
      | VArr l => VArr (map at_object l)
      | _ => at_object v
      end
  end.

(** The fields of [read_layout], as paths. *)
Definition read_paths : list path :=
  [[str "answer"];
   [str "sources"];
   [str "sources"; str "name"];
   [str "sources"; str "type"];
   [str "graph_data"];
   [str "graph_data"; str "nodes"];
   [str "graph_data"; str "nodes"; str "id"];
   [str "graph_data"; str "nodes"; str "labels"];
   [str "graph_data"; str "nodes"; str "properties"];
   [str "graph_data"; str "relationships"];
   [str "graph_data"; str "relationships"; str "source"];
   [str "graph_data"; str "relationships"; str "target"];
   [str "graph_data"; str "relationships"; str "type"]].

(** The fields of the envelope that [read_layout] leaves out. *)
Definition unread_paths : list path :=
  [[str "question"]; [str "sources"; str "properties"]].

Section Consume.
Context `{Engine}.

(** What the page shows: the rendered messages and what the graph effect
    builds from the stored graph.  (The console is not part of it.) *)
Definition view (w : world) (r : refs) :
    completion (list vnode) * completion (bool * refs) :=
  (ChatPanel.render_messages (messages w), effect (graphData w) r).

(** What the page shows once a response with payload [answerData] has been
    handled. *)
Definition consume (answerData : value) (w : world) (r : refs) :=
  view (handleSubmit_resume (Resolved (VObj [(str "data", answerData)])) w).2 r.

End Consume.

End Envelope.

(** ** States and values the theorems speak of *)

Module Expected.
Import App.

(** The state after the synchronous part of a submission. *)
Definition submitted (API_URL question : jsstring) (w : world) : world :=
  {| graphData := graphData w;
     isLoading := true;
     messages := messages w ++
       [{| type := str "user"; content := VStr question; sources := VUndef |}];
     inputValue := [];
     calls := calls w ++
       [CallSetMessages; CallSetInputValue []; CallSetIsLoading true;
        CallPost (API_URL ++ str "/ask") (VObj [(str "question", VStr question)])] |}.

(** The state after a response with payload [answerData] was handled. *)
Definition answered (answerData : value) (w : world) : world :=
  let graph_data := get_opt answerData (str "graph_data") in
  {| graphData := if ToBoolean graph_data then graph_data else graphData w;
     isLoading := false;
     messages := messages w ++
       [{| type := str "assistant";
           content := get_opt answerData (str "answer");
           sources := get_opt answerData (str "sources") |}];
     inputValue := inputValue w;
     calls := calls w ++ [CallSetMessages] ++
       (if ToBoolean graph_data then [CallSetGraphData graph_data] else []) ++
       [CallSetIsLoading false] |}.

(** [error.response?.data?.detail] *)
Definition detail_of (error : value) : value :=
  get_opt (get_opt (get_opt error (str "response")) (str "data")) (str "detail").

(** A value that converts to a string: no object with an own [toString]
    property in it, at any depth of arrays. *)
Fixpoint printable (v : value) : bool :=
  match v with
  | VArr l =>
      (fix all (l : list value) : bool :=
         match l with
         | [] => true
         | x :: l' => printable x && all l'
         end) l
  | VObj kvs => negb (has_own (str "toString") kvs)
  | _ => true
  end.

(** The properties a tooltip has a line for: all but [embedding] and
    [description]. *)
Definition shown_properties (props : list (jsstring * value)) : list (jsstring * value) :=
  filter (fun e => e.1 <> str "embedding" /\ e.1 <> str "description") props.

(** The string a printable value converts to. *)
Definition text `{Engine} (v : value) : jsstring :=
  match ToString v with
  | Normal s => s
  | Throw _ => []
  end.

(** A type tag as the graph store has them: a non-empty string. *)
Definition is_tag (v : value) : bool :=
  match v with
  | VStr s => negb (eqs s [])
  | _ => false
  end.

End Expected.

(** ** Data for the worked examples *)

Module Examples.
Import App GraphVisualization.

(** An engine for the worked examples below; none of them converts a
    number to a string or a string to a number. *)
Definition example_engine : Engine :=
  {| Number_toString := fun _ => str "NaN"; StringToNumber := fun _ => PrimFloat.nan |}.

Definition server_error : value :=
  VObj [(str "message", VStr (str "Request failed with status code 500"));
        (str "stack", VStr (str "AxiosError: Request failed at settle (axios.js:1)"));
        (str "response",
         VObj [(str "status", VStr (str "500"));
               (str "data", VObj [(str "detail", VStr (str "Error processing question"))])])].


Definition two_sources : list value :=
  [VObj [(str "name", VStr (str "DB-Server")); (str "type", VStr (str "Asset"));
         (str "properties", VObj [])];
   VObj [(str "name", VStr (str "Data-Center-1")); (str "type", VStr (str "Location"));
         (str "properties", VObj [])]].

Definition db_server_properties : list (jsstring * value) :=
  [(str "name", VStr (str "DB-Server"));
   (str "description", VStr (str "db"));
   (str "embedding", VArr [VNum 0.5%float; VNum 0.25%float]);
   (str "status", VStr (str "active"))].

Definition db_server_fields : list (jsstring * value) :=
  [(str "id", VStr (str "4:abc:0"));
   (str "labels", VArr [VStr (str "Node"); VStr (str "Asset")]);
   (str "properties", VObj db_server_properties)].

Definition db_server : value := VObj db_server_fields.

Definition data_center_fields : list (jsstring * value) :=
  [(str "id", VStr (str "4:abc:7"));
   (str "labels", VArr [VStr (str "Node")]);
   (str "properties", VObj [(str "name", VStr (str "Data-Center-1"))])].

Definition data_center : value := VObj data_center_fields.

Definition located_in : value :=
  VObj [(str "source", VStr (str "4:abc:0"));
        (str "target", VStr (str "4:abc:7"));
        (str "type", VStr (str "LOCATED_IN"))].

Definition payload (question : string) (source_status : string) : value :=
  VObj [(str "question", VStr (str question));
        (str "answer", VStr (str "The DB-Server is located in Data-Center-1."));
        (str "sources",
         VArr [VObj [(str "name", VStr (str "DB-Server"));
                     (str "type", VStr (str "Asset"));
                     (str "properties",
                      VObj [(str "status", VStr (str source_status))])]]);
        (str "graph_data",
         VObj [(str "nodes", VArr [db_server; data_center]);
               (str "relationships", VArr [located_in])])].

Definition mounted : refs := {| container := true; network := None |}.

Definition five_examples : list value :=
  [VStr (str "Where is the DB-Server located?");
   VStr (str "What assets will break if Web-API goes down?");
   VStr (str "Who owns the DB-Server?");
   VStr (str "Which services run on App-Server?");
   VStr (str "What is in Data-Center-1?")].

(** The page after one question and its answer. *)
Definition answered_once : system :=
  settle 0 (Resolved (VObj [(str "data", payload "q" "active")]))
    (submit (str "http://localhost:8000") (str "hi") initial).

Definition ask_hi : ChatPanel.request :=
  {| ChatPanel.url := str "http://localhost:8000/ask";
     ChatPanel.body := VObj [(str "question", VStr (str "hi"))] |}.

Definition ask : ChatPanel.request :=
  {| ChatPanel.url := str "http://localhost:8000/ask";
     ChatPanel.body := VObj [(str "question", VStr (str "Where is the DB-Server located?"))] |}.

End Examples.

(** ** ChatPanel.jsx: the examples and the input row *)

Module ChatPanelControls.

Section Component.
Context `{Engine}.
Variable API_URL : jsstring.
Variable setIsLoading : bool -> M unit.

(** [disabled={!inputValue.trim()}] on the Send button. *)
Definition send_disabled (inputValue : jsstring) : bool :=
  negb (ToBoolean (VStr (trim inputValue))).

(** [onKeyPress] of the input, for the key and the shift state of the
    event; [handleSubmit] is started with the [inputValue] of the state.
    ([e.preventDefault()] acts on the event only.) *)
Definition onKeyPress (key : jsstring) (shiftKey : bool)
  : M (option ChatPanel.request) := fun w =>
  if eqs key (str "Enter") && negb shiftKey
  then ChatPanel.handleSubmit_start API_URL setIsLoading (inputValue w) w
  else (Normal None, w).

(** [handleExampleClick(example)]: an example that is not a string has no
    [trim] to call. *)
Definition handleExampleClick (example : value) : M (option ChatPanel.request) :=
  match example with
  | VStr question => ChatPanel.handleSubmit_start API_URL setIsLoading question
  | _ => lift (Throw TypeError)
  end.

(** The request of the mount effect,
    [axios.get(...).then(response => setExamples(response.data.examples))
              .catch(err => console.error(..., err))],
    for a promise that settles as [o]: the new content of the [examples]
    state cell, and what went to the console. *)
Definition load_examples (o : outcome) (examples : value) : value * option thrown :=
  let fetched :=
    response ← match o with
               | Resolved response => Normal response
               | Rejected error => Throw (Rejection error)
               end;
    data ← get response (str "data");
    get data (str "examples") in
  match fetched with
  | Normal v => (v, None)
  | Throw e => (examples, Some e)
  end.

(** [examples.slice(0, 4)]: arrays and strings have the method. *)
Definition slice_0_4 (v : value) : completion value :=
  match v with
  | VArr l => Normal (VArr (take 4 l))
  | VStr s => Normal (VStr (take 4 s))
  | _ => Throw TypeError
  end.

(** [<button key={index} className="example-button" ...>{example}</button>] *)
Definition render_example (example : value) (index : nat) : completion vnode :=
  Normal (Elem (str "button") (str "example-button") (Some index) [Expr example]).

(** [{examples.length > 0 && messages.length === 1 && (<div ...>)}] *)
Definition render_examples (examples : value) (msgs : list message) : completion vnode :=
  len ← get_length examples;
  positive ← length_gt_zero len;
  if negb positive then Normal (Expr (VBool false))
  else if negb (List.length msgs =? 1)%nat then Normal (Expr (VBool false))
  else
    shown ← slice_0_4 examples;
    buttons ← array_map render_example shown;
    Normal (Elem (str "div") (str "examples-section") None
              [Elem (str "p") (str "examples-title") None
                 [Text (str "Try these examples:")];
               Elem (str "div") (str "examples-grid") None buttons]).

End Component.
End ChatPanelControls.

(** ** GraphVisualization.jsx: what the component returns *)

Module GraphVisualizationView.
Import GraphVisualization.

(** JSX elements with an inline style. *)
Inductive snode :=
| SText (s : jsstring)
| SExpr (v : value)
| SElem (tag className : jsstring) (style : list (jsstring * jsstring))
        (children : list snode).

Definition legend_item (color label : jsstring) : snode :=
  SElem (str "div") (str "legend-item") []
    [SElem (str "span") (str "legend-color") [(str "background", color)] [];
     SText label].

Definition graph_legend : snode :=
  SElem (str "div") (str "graph-legend") []
    [SElem (str "h4") [] [] [SText (str "Legend")];
     SElem (str "div") (str "legend-items") []
       [legend_item (str "#4CAF50") (str "Asset");
        legend_item (str "#2196F3") (str "Service");
        legend_item (str "#FF9800") (str "User");
        legend_item (str "#9C27B0") (str "Location")]].

Definition loading_overlay : snode :=
  SElem (str "div") (str "loading-overlay") []
    [SElem (str "div") (str "loading-spinner") [] [];
     SElem (str "p") [] [] [SText (str "Loading graph...")]].

(** The icon is U+1F50D, two code units. *)
Definition empty_state : snode :=
  SElem (str "div") (str "empty-state") []
    [SElem (str "div") (str "empty-icon") [] [SText [55357%N; 56589%N]];
     SElem (str "h3") [] [] [SText (str "No graph data yet")];
     SElem (str "p") [] []
       [SText (str "Ask a question to see the relevant knowledge graph")]].

(** The four children of the returned [div]: the overlay, the empty
    state, the container of the network, the legend. *)
Definition render (graphData : value) (isLoading : bool) : snode :=
  SElem (str "div") (str "graph-visualization") []
    [(if isLoading then loading_overlay else SExpr (VBool false));
     (if negb (ToBoolean graphData)
      then (if negb isLoading then empty_state else SExpr (VBool false))
      else SExpr (VBool false));
     SElem (str "div") (str "network-container")
       [(str "display", if ToBoolean graphData then str "block" else str "none")] [];
     (if ToBoolean graphData then graph_legend else SExpr graphData)].

(** [<GraphVisualization graphData={graphData} isLoading={isLoading} />]
    in App.jsx. *)
Definition graph_panel (w : world) : snode := render (graphData w) (isLoading w).

End GraphVisualizationView.

(** ** Further notions the theorems speak of *)

Module Measures.
Import Expected GraphVisualization GraphVisualizationView.

(** The requests among the calls. *)
Definition is_post (c : call) : bool :=
  match c with
  | CallPost _ _ => true
  | _ => false
  end.

Definition posts (cs : list call) : nat := List.length (List.filter is_post cs).

(** The state after a failure was reported: [logged] went to the console
    and one message of type [error] with [content] was appended. *)
Definition reported (logged : thrown) (content : value) (w : world) : world :=
  {| graphData := graphData w;
     isLoading := false;
     messages := messages w ++
       [{| type := str "error"; content := content; sources := VUndef |}];
     inputValue := inputValue w;
     calls := calls w ++ [CallConsoleError logged; CallSetMessages; CallSetIsLoading false] |}.

(** The state after the catch clause itself failed: nothing was appended. *)
Definition unreported (logged : thrown) (w : world) : world :=
  {| graphData := graphData w;
     isLoading := false;
     messages := messages w;
     inputValue := inputValue w;
     calls := calls w ++ [CallConsoleError logged; CallSetIsLoading false] |}.

(** Two lower-case hexadecimal digits of a channel value. *)
Definition hex_char (d : Z) : N := Z.to_N (if (d <? 10)%Z then 48 + d else 87 + d)%Z.
Definition hex2 (z : Z) : jsstring := [hex_char (z / 16)%Z; hex_char (z mod 16)%Z].

(** The hexadecimal digits, in either case, with their values. *)
Definition hex_table : list (N * Z) :=
  [(48%N, 0%Z); (49%N, 1%Z); (50%N, 2%Z); (51%N, 3%Z);
   (52%N, 4%Z); (53%N, 5%Z); (54%N, 6%Z); (55%N, 7%Z);
   (56%N, 8%Z); (57%N, 9%Z); (97%N, 10%Z); (98%N, 11%Z);
   (99%N, 12%Z); (100%N, 13%Z); (101%N, 14%Z); (102%N, 15%Z);
   (65%N, 10%Z); (66%N, 11%Z); (67%N, 12%Z); (68%N, 13%Z);
   (69%N, 14%Z); (70%N, 15%Z)].

(** One channel of [darkenColor], checked on every pair of digits. *)
Definition channel_ok (hi lo : N * Z) : bool :=
  bool_decide (padStart2 (toString16 (darker_channel [hi.1; lo.1]))
               = hex2 (Z.max 0 (16 * hi.2 + lo.2 - 30))).

(** A color as vis-network takes it: [#] and six hexadecimal digits. *)
Definition is_color (s : jsstring) : bool :=
  match s with
  | 35%N :: digits =>
      (List.length digits =? 6)%nat && forallb (fun c => bool_decide (is_Some (hex_value c))) digits
  | _ => false
  end.

(** A node the graph effect can draw: an object with a list of type tags
    for labels, none of them the name of a member of [Object.prototype],
    and with properties whose values, [embedding] and [description]
    apart, convert to strings. *)
Definition plain_tag (l : value) : bool :=
  match l with
  | VStr s => negb (eqs s []) && negb (bool_decide (s ∈ object_prototype_keys))
  | _ => false
  end.

Definition line_printable (entry : jsstring * value) : bool :=
  negb (shown_in_tooltip entry) || printable entry.2.

Definition drawable (node : value) : bool :=
  match get_opt node (str "labels") with
  | VArr labels => forallb plain_tag labels
  | _ => false
  end &&
  match entries (get_opt node (str "properties")) with
  | Normal es => forallb line_printable es
  | Throw _ => false
  end.

(** The container of the network, shown or hidden. *)
Definition network_container (display : jsstring) : snode :=
  SElem (str "div") (str "network-container") [(str "display", display)] [].

(** Whether a child of the component's [div] is an element. *)
Definition is_element (n : snode) : bool :=
  match n with
  | SElem _ _ _ _ => true
  | _ => false
  end.

(** The children of what [render] returns. *)
Definition children_of (n : snode) : list snode :=
  match n with
  | SElem _ _ _ children => children
  | _ => []
  end.

End Measures.

(** ** Facts about the value model *)

Module JSFacts.

Lemma eqs_true (a b : jsstring) : eqs a b = true <-> a = b.
Proof. unfold eqs. apply bool_decide_eq_true. Qed.

Lemma eqs_false (a b : jsstring) : eqs a b = false <-> a <> b.
Proof. unfold eqs. apply bool_decide_eq_false. Qed.

Lemma eqs_refl (a : jsstring) : eqs a a = true.
Proof. by apply eqs_true. Qed.

Lemma trim_start_spaces (s : jsstring) :
  Forall (fun c => is_space c = true) s -> trim_start s = [].
Proof.
  induction 1 as [|c s Hc _ IH]; simpl; [done|]. by rewrite Hc.
Qed.

(** A string of white space only trims to the empty string. *)
Lemma trim_spaces (s : jsstring) :
  Forall (fun c => is_space c = true) s -> trim s = [].
Proof.
  intros Hs. unfold trim. by rewrite (trim_start_spaces s Hs).
Qed.

Lemma trim_start_nil_inv (s : jsstring) :
  trim_start s = [] -> Forall (fun c => is_space c = true) s.
Proof.
  induction s as [|c s IH]; simpl; [constructor|].
  destruct (is_space c) eqn:Hc; [|discriminate].
  intros Hs. constructor; auto.
Qed.

Lemma trim_start_suffix (s : jsstring) : exists p, s = p ++ trim_start s /\
  Forall (fun c => is_space c = true) p.
Proof.
  induction s as [|c s [p [IH1 IH2]]]; simpl.
  - by exists [].
  - destruct (is_space c) eqn:Hc.
    + exists (c :: p). split; [simpl; congruence | by constructor].
    + by exists [].
Qed.

(** Conversely, only white space trims to the empty string. *)
Lemma trim_nil_inv (s : jsstring) :
  trim s = [] -> Forall (fun c => is_space c = true) s.
Proof.
  unfold trim. intros Ht.
  destruct (trim_start_suffix s) as [p [Hs Hp]].
  assert (Hr : trim_start (rev (trim_start s)) = []).
  { apply (f_equal (@rev N)) in Ht. by rewrite rev_involutive in Ht. }
  apply trim_start_nil_inv in Hr.
  rewrite Hs. apply Forall_app. split; [done|].
  apply Forall_forall. intros c Hc.
  rewrite Forall_forall in Hr. apply Hr.
  apply list_elem_of_In, in_rev. rewrite rev_involutive. by apply list_elem_of_In.
Qed.

(** Results of [map_from]: one output per input, at the same position, each
    computed from its element and its index. *)
Lemma map_from_lookup {A B} (f : A -> nat -> completion B) (l : list A) :
  forall i ys, map_from f i l = Normal ys ->
    List.length ys = List.length l /\
    forall j x, l !! j = Some x -> exists y, ys !! j = Some y /\ f x (i + j) = Normal y.
Proof.
  induction l as [|a l IH]; intros i ys; simpl.
  - intros [= <-]. split; [done|]. intros j x Hj. by destruct j.
  - unfold mbind, completion_bind.
    destruct (f a i) as [y|e] eqn:Hy; [|discriminate].
    destruct (map_from f (S i) l) as [ys'|e] eqn:Hys; [|discriminate].
    intros [= <-]. destruct (IH _ _ Hys) as [Hlen Hlk].
    split; [simpl; congruence|].
    intros [|j] x Hj; simpl in *.
    + injection Hj as ->. exists y. by rewrite Nat.add_0_r.
    + destruct (Hlk j x Hj) as [y' [H1 H2]]. exists y'.
      split; [done|]. by replace (i + S j) with (S i + j) by lia.
Qed.

Lemma map_from_total {A B} (f : A -> nat -> completion B) (l : list A) :
  forall i, (forall j x, l !! j = Some x -> exists y, f x (i + j) = Normal y) ->
    exists ys, map_from f i l = Normal ys.
Proof.
  induction l as [|a l IH]; intros i Hf; simpl.
  - by eexists.
  - destruct (Hf 0 a eq_refl) as [y Hy]. rewrite Nat.add_0_r in Hy.
    destruct (IH (S i)) as [ys Hys].
    { intros j x Hj. destruct (Hf (S j) x Hj) as [y' Hy'].
      exists y'. by replace (S i + j) with (i + S j) by lia. }
    exists (y :: ys). unfold mbind, completion_bind. by rewrite Hy, Hys.
Qed.

Lemma map_from_ext {A A' B} (f : A -> nat -> completion B) (g : A' -> nat -> completion B)
    (h : A -> A') (l : list A) :
  (forall x i, x ∈ l -> g (h x) i = f x i) ->
  forall i, map_from g i (map h l) = map_from f i l.
Proof.
  induction l as [|a l IH]; intros Hfg i; simpl; [done|].
  rewrite Hfg by constructor.
  rewrite IH; [done|]. intros x j Hx. apply Hfg. by constructor.
Qed.

End JSFacts.

(** ** Conversion to strings *)

Module Printing.
Import Expected.

Section value_induction.
Variable P : value -> Prop.
Hypothesis Pundef : P VUndef.
Hypothesis Pnull : P VNull.
Hypothesis Pbool : forall b, P (VBool b).
Hypothesis Pnum : forall n, P (VNum n).
Hypothesis Pstr : forall s, P (VStr s).
Hypothesis Parr : forall l, Forall P l -> P (VArr l).
Hypothesis Pobj : forall kvs, P (VObj kvs).

(** Induction on values that reaches the elements of arrays. *)
Fixpoint value_array_ind (v : value) : P v :=
  match v with
  | VUndef => Pundef
  | VNull => Pnull
  | VBool b => Pbool b
  | VNum n => Pnum n
  | VStr s => Pstr s
  | VArr l =>
      Parr l ((fix go (l : list value) : Forall P l :=
                 match l with
                 | [] => @List.Forall_nil value P
                 | x :: l' => @List.Forall_cons value P x l' (value_array_ind x) (go l')
                 end) l)
  | VObj kvs => Pobj kvs
  end.

End value_induction.

Section Props.
Context `{Engine}.

(** A conversion completes exactly on the printable values, and fails
    with a TypeError on the others. *)
Lemma ToString_cases (v : value) :
  (printable v = true /\ exists s, ToString v = Normal s) \/
  (printable v = false /\ ToString v = Throw TypeError).
Proof.
  induction v as [| |b|n|s|l IH|kvs] using value_array_ind;
    try (left; split; [reflexivity | by eexists]).
  - left. split; [reflexivity|]. destruct b; by eexists.
  - induction IH as [|x l' Hx _ IHl].
    + left. split; [reflexivity | by eexists].
    + change (printable (VArr (x :: l'))) with (printable x && printable (VArr l')).
      assert (Hfirst : (printable x = true /\
                        exists s, (if nullish x then Normal [] else ToString x) = Normal s) \/
                       (printable x = false /\
                        (if nullish x then Normal [] else ToString x) = Throw TypeError)).
      { destruct (nullish x) eqn:Hn; [|exact Hx].
        left. split; [by destruct x | by eexists]. }
      change (ToString (VArr (x :: l'))) with
        (s ← (if nullish x then Normal [] else ToString x);
         match l' with
         | [] => Normal s
         | _ => rest ← ToString (VArr l'); Normal (s ++ str "," ++ rest)
         end).
      unfold mbind, completion_bind.
      destruct Hfirst as [[-> [s ->]]|[-> ->]]; [|by right].
      destruct l' as [|y l'']; [left; split; [reflexivity | by eexists]|].
      destruct IHl as [[-> [rest ->]]|[-> ->]]; [left|right]; split; try reflexivity.
      by eexists.
  - simpl. destruct (has_own (str "toString") kvs); [by right|].
    left. split; [reflexivity | by eexists].
Qed.

Lemma ToString_printable (v : value) :
  printable v = true -> ToString v = Normal (text v).
Proof.
  intros Hp. destruct (ToString_cases v) as [[_ [s Hs]]|[Hn _]]; [|congruence].
  unfold text. by rewrite Hs.
Qed.

Lemma ToString_unprintable (v : value) :
  printable v = false -> ToString v = Throw TypeError.
Proof.
  intros Hp. destruct (ToString_cases v) as [[Hy _]|[_ Hs]]; [congruence | exact Hs].
Qed.

Lemma ToString_throws (v : value) (e : thrown) : ToString v = Throw e -> e = TypeError.
Proof.
  intros He. destruct (ToString_cases v) as [[_ [s Hs]]|[_ Hs]]; congruence.
Qed.

Lemma ToNumber_throws (v : value) (e : thrown) : ToNumber v = Throw e -> e = TypeError.
Proof.
  unfold ToNumber, mbind, completion_bind. intros He.
  destruct v as [| |[|]| | |l|kvs]; try discriminate.
  - destruct (ToString (VArr l)) eqn:Hs; [discriminate|].
    injection He as <-. by eapply ToString_throws.
  - destruct (ToString (VObj kvs)) eqn:Hs; [discriminate|].
    injection He as <-. by eapply ToString_throws.
Qed.

Lemma length_gt_zero_throws (len : jslength) (e : thrown) :
  length_gt_zero len = Throw e -> e = TypeError.
Proof.
  destruct len as [n|v]; [discriminate|].
  unfold length_gt_zero, mbind, completion_bind.
  destruct (ToNumber v) eqn:Hn; [discriminate|].
  intros [= <-]. by eapply ToNumber_throws.
Qed.

Lemma text_string (s : jsstring) : text (VStr s) = s.
Proof. reflexivity. Qed.

End Props.
End Printing.

(** ** Submitting a question *)

Module Submission.
Import JSFacts App Expected Examples.

Ltac run := unfold mbind, mret, M_bind, M_ret, lift, completion_bind; simpl.

Section Props.
Variable API_URL : jsstring.

Lemma blank_guard (question : jsstring) :
  trim question = [] -> negb (ToBoolean (VStr (trim question))) = true.
Proof. intros ->. reflexivity. Qed.

Lemma nonblank_guard (question : jsstring) :
  trim question <> [] -> negb (ToBoolean (VStr (trim question))) = false.
Proof.
  intros Hq. simpl. apply eqs_false in Hq. by rewrite Hq.
Qed.

Lemma handleSubmit_start_blank (question : jsstring) (w : world) :
  trim question = [] -> handleSubmit_start API_URL question w = (Normal None, w).
Proof.
  intros Hq. unfold handleSubmit_start, ChatPanel.handleSubmit_start.
  by rewrite (blank_guard _ Hq).
Qed.

(** C3.  A question that is empty after trimming is rejected by the guard
    of [handleSubmit]: no request is issued, no setter is called, no
    message is appended, and the whole state of the page, the record of
    calls included, is what it was. *)
Theorem blank_question_rejected (question : jsstring) (o : outcome) (w : world)
    (s : system) :
  trim question = [] ->
  handleSubmit_start API_URL question w = (Normal None, w) /\
  handleSubmit API_URL question o w = (Normal (), w) /\
  submit API_URL question s = s.
Proof.
  intros Hq.
  pose proof (fun w' => handleSubmit_start_blank question w' Hq) as Hs.
  split; [apply Hs|]. split.
  - unfold handleSubmit, ChatPanel.handleSubmit.
    change (ChatPanel.handleSubmit_start API_URL setIsLoading question)
      with (handleSubmit_start API_URL question).
    unfold mbind, M_bind. by rewrite Hs.
  - unfold submit. rewrite Hs. by destruct s.
Qed.

Lemma handleSubmit_start_nonblank (question : jsstring) (w : world) :
  trim question <> [] ->
  handleSubmit_start API_URL question w =
    (Normal (Some {| ChatPanel.url := API_URL ++ str "/ask";
                     ChatPanel.body := VObj [(str "question", VStr question)] |}),
     submitted API_URL question w).
Proof.
  intros Hq. unfold handleSubmit_start, ChatPanel.handleSubmit_start.
  rewrite (nonblank_guard _ Hq). run.
  unfold submitted, record_call; simpl. do 2 f_equal.
  by rewrite <- !app_assoc.
Qed.

(** Whatever the try and catch blocks do, the finally block runs last. *)
Lemma finally_resets_loading {A} (body : M A) (handler : thrown -> M A) (w : world) :
  let w' := (try_catch_finally body handler (setIsLoading false) w).2 in
  isLoading w' = false /\ last (calls w') = Some (CallSetIsLoading false).
Proof.
  unfold try_catch_finally.
  destruct (body w) as [r w1].
  destruct r as [a|e]; [|destruct (handler e w1) as [r' w2]]; simpl;
    (split; [reflexivity | apply last_snoc]).
Qed.

Lemma loading_invariant (s : system) :
  rtc (step API_URL) initial s -> in_flight s = [] -> isLoading (ui s) = false.
Proof.
  revert s.
  apply (rtc_ind_r (fun s => in_flight s = [] -> isLoading (ui s) = false)); [done|].
  intros s1 s2 Hreach Hstep IH.
  destruct Hstep as [s1|s1 text|s1 question|s1 i o Hi]; simpl.
  - exact IH.
  - exact IH.
  - unfold submit.
    destruct (decide (trim question = [])) as [Hq|Hq].
    + rewrite (handleSubmit_start_blank question (ui s1) Hq). exact IH.
    + rewrite (handleSubmit_start_nonblank _ _ Hq). simpl.
      intros Hnil. by apply app_eq_nil in Hnil as [_ ?].
  - intros _. apply (finally_resets_loading _ _ (ui s1)).
Qed.

(** C10.  For a question that is not blank, [handleSubmit] calls
    [setIsLoading(true)] before it issues the request; when the request
    settles, with a response or with an error, the last thing the handler
    does is [setIsLoading(false)]; and in every state the page can reach,
    the loading flag is false when no request is in flight. *)
Theorem loading_flag_brackets_request (question : jsstring) (w : world) :
  trim question <> [] ->
  (exists r w1,
     handleSubmit_start API_URL question w = (Normal (Some r), w1) /\
     isLoading w1 = true /\
     calls w1 = calls w ++
       [CallSetMessages; CallSetInputValue []; CallSetIsLoading true;
        CallPost (ChatPanel.url r) (ChatPanel.body r)]) /\
  (forall (o : outcome) (w2 : world),
     let w3 := (handleSubmit_resume o w2).2 in
     isLoading w3 = false /\ last (calls w3) = Some (CallSetIsLoading false)) /\
  (forall s : system,
     reachable API_URL s -> in_flight s = [] -> isLoading (ui s) = false).
Proof.
  intros Hq. split; [|split].
  - eexists _, _. split; [apply (handleSubmit_start_nonblank _ _ Hq)|].
    split; reflexivity.
  - intros o w2. apply finally_resets_loading.
  - intros s. apply loading_invariant.
Qed.

(** *** What [handleNewAnswer] stores *)

Lemma get_get_opt (v : value) (k : jsstring) :
  nullish v = false -> get v k = Normal (get_opt v k).
Proof. by destruct v. Qed.

Lemma get_opt_nullish (v : value) (k : jsstring) :
  nullish v = true -> get v k = Throw TypeError /\ get_opt v k = VUndef.
Proof. by destruct v. Qed.

Lemma handleNewAnswer_run (answerData : value) (w : world) :
  let graph_data := get_opt answerData (str "graph_data") in
  (handleNewAnswer answerData w).2 =
    if ToBoolean graph_data
    then {| graphData := graph_data; isLoading := isLoading w; messages := messages w;
            inputValue := inputValue w;
            calls := calls w ++ [CallSetGraphData graph_data] |}
    else w.
Proof.
  unfold handleNewAnswer. run.
  destruct (nullish answerData) eqn:Hn.
  - destruct (get_opt_nullish answerData (str "graph_data") Hn) as [-> ->]. reflexivity.
  - rewrite (get_get_opt _ _ Hn).
    by destruct (ToBoolean (get_opt answerData (str "graph_data"))).
Qed.

(** C9.  [handleNewAnswer] leaves the page as it was, the stored graph
    included, when the payload's [graph_data] is absent, [null] or
    otherwise falsy; it stores [graph_data] when that is truthy; so the
    stored graph changes only for a payload with a truthy [graph_data]. *)
Theorem graph_data_replaced_only_when_truthy (answerData : value) (w : world) :
  let graph_data := get_opt answerData (str "graph_data") in
  let w' := (handleNewAnswer answerData w).2 in
  (ToBoolean graph_data = false -> w' = w) /\
  (ToBoolean graph_data = true -> graphData w' = graph_data) /\
  (graphData w' <> graphData w -> ToBoolean graph_data = true).
Proof.
  intros graph_data w'. subst w'. rewrite handleNewAnswer_run. fold graph_data.
  destruct (ToBoolean graph_data); repeat split; try done.
Qed.

(** The same through [handleSubmit]: after a response whose payload has no
    truthy [graph_data], the graph on display is the previous one. *)
Lemma response_without_graph_keeps_graph (answerData : value) (w : world) :
  ToBoolean (get_opt answerData (str "graph_data")) = false ->
  graphData (handleSubmit_resume (Resolved (VObj [(str "data", answerData)])) w).2
    = graphData w.
Proof.
  intros Hgd.
  unfold handleSubmit_resume, ChatPanel.handleSubmit_resume, try_catch_finally. run.
  destruct (nullish answerData) eqn:Hn.
  - destruct (get_opt_nullish answerData (str "answer") Hn) as [-> _]. reflexivity.
  - rewrite !(get_get_opt answerData _ Hn). simpl.
    pose proof (handleNewAnswer_run answerData) as Hrun. simpl in Hrun.
    rewrite Hgd in Hrun.
    match goal with |- context [handleNewAnswer answerData ?w0] =>
      specialize (Hrun w0); destruct (handleNewAnswer answerData w0) as [r w1] end.
    simpl in Hrun. subst w1. destruct r as [[]|[|[]]]; reflexivity.
Qed.

(** *** Answers *)

Lemma resume_answer (answerData : value) (w : world) :
  nullish answerData = false ->
  handleSubmit_resume (Resolved (VObj [(str "data", answerData)])) w
    = (Normal (), answered answerData w).
Proof.
  intros Hn.
  unfold handleSubmit_resume, ChatPanel.handleSubmit_resume, try_catch_finally,
    handleNewAnswer, answered.
  run. rewrite !(get_get_opt answerData _ Hn). simpl.
  destruct (ToBoolean (get_opt answerData (str "graph_data"))); simpl;
    unfold record_call; simpl; rewrite <- !app_assoc; reflexivity.
Qed.

(** *** Failed requests *)



(** A response that cannot be read as an answer (no [data]) ends in the
    catch clause as well, with the fixed sentence. *)
Lemma unreadable_response_reports_fallback (response : value) (w : world) :
  nullish response = true \/ nullish (get_opt response (str "data")) = true ->
  messages (handleSubmit_resume (Resolved response) w).2 =
    messages w ++ [{| type := str "error";
                      content := VStr ChatPanel.fallback_error; sources := VUndef |}].
Proof.
  intros Hr.
  unfold handleSubmit_resume, ChatPanel.handleSubmit_resume, try_catch_finally. run.
  destruct (nullish response) eqn:Hn.
  - destruct (get_opt_nullish response (str "data") Hn) as [-> _]. reflexivity.
  - destruct Hr as [?|Hd]; [done|].
    rewrite (get_get_opt _ _ Hn). simpl.
    destruct (get_opt_nullish _ (str "answer") Hd) as [-> _]. reflexivity.
Qed.

End Props.

Lemma graph_data_replaced_only_when_truthy_witness :
  (handleNewAnswer (VObj [(str "answer", VStr (str "ok")); (str "graph_data", VNull)])
     (ui initial)).2 = ui initial /\
  graphData (handleNewAnswer
     (VObj [(str "graph_data", VObj [(str "nodes", VArr [])])]) (ui initial)).2
    = VObj [(str "nodes", VArr [])].
Proof.
  split.
  - apply (graph_data_replaced_only_when_truthy
             (VObj [(str "answer", VStr (str "ok")); (str "graph_data", VNull)])).
    reflexivity.
  - apply (graph_data_replaced_only_when_truthy
             (VObj [(str "graph_data", VObj [(str "nodes", VArr [])])])).
    reflexivity.
Defined.


Lemma blank_question_rejected_witness :
  trim (str "  ") = [] /\
  handleSubmit_start (str "http://localhost:8000") (str "  ") (ui initial)
    = (Normal None, ui initial).
Proof.
  split; [reflexivity|].
  apply (blank_question_rejected (str "http://localhost:8000") (str "  ")
           (Rejected VNull) (ui initial) initial).
  reflexivity.
Defined.

Lemma loading_flag_brackets_request_witness :
  trim (str "Where is the DB-Server located?") <> [] /\
  isLoading (handleSubmit (str "http://localhost:8000")
               (str "Where is the DB-Server located?") (Rejected (VObj []))
               (ui initial)).2 = false.
Proof.
  assert (Hq : trim (str "Where is the DB-Server located?") <> []) by (vm_compute; discriminate).
  split; [exact Hq|].
  destruct (loading_flag_brackets_request (str "http://localhost:8000")
              (str "Where is the DB-Server located?") (ui initial) Hq) as [_ [Hres _]].
  unfold handleSubmit, ChatPanel.handleSubmit, mbind, M_bind.
  change (ChatPanel.handleSubmit_start (str "http://localhost:8000") setIsLoading
            (str "Where is the DB-Server located?") (ui initial))
    with (handleSubmit_start (str "http://localhost:8000")
            (str "Where is the DB-Server located?") (ui initial)).
  rewrite (handleSubmit_start_nonblank _ _ _ Hq).
  apply (Hres (Rejected (VObj []))).
Defined.

End Submission.

(** ** Rendering the messages *)

Module Rendering.
Import JSFacts App Expected Examples Submission.

Section Props.
Context `{Engine}.

Lemma render_source_normal (source : value) (idx : nat) :
  nullish source = false ->
  ChatPanel.render_source source idx =
    Normal (Elem (str "li") [] (Some idx)
              [Expr (get_opt source (str "type")); Text (str ": ");
               Expr (get_opt source (str "name"))]).
Proof.
  intros Hn. unfold ChatPanel.render_source.
  by rewrite !(get_get_opt _ _ Hn).
Qed.

(** C2.  For a payload whose [sources] is a non-empty list of entries, the
    assistant message keeps the list as it came, and its rendering has one
    [li] per source, in the order of the list: the item at position [i],
    keyed [i], shows the type and the name of the source at position [i].
    In particular the first item is the first source. *)
Theorem sources_rendered_in_payload_order (fields : list (jsstring * value))
    (srcs : list value) (w : world) (index : nat) :
  lookup_prop (str "sources") fields = VArr srcs ->
  srcs <> [] ->
  Forall (fun source => nullish source = false) srcs ->
  let m := {| type := str "assistant";
              content := lookup_prop (str "answer") fields;
              sources := VArr srcs |} in
  messages (handleSubmit_resume (Resolved (VObj [(str "data", VObj fields)])) w).2
    = messages w ++ [m] /\
  exists items,
    ChatPanel.render_message m index =
      Normal (Elem (str "div") (str "message assistant") (Some index)
                [Elem (str "div") (str "message-content") None [Expr (content m)];
                 Elem (str "div") (str "message-sources") None
                   [Elem (str "strong") [] None [Text (str "Sources:")];
                    Elem (str "ul") [] None items]]) /\
    List.length items = List.length srcs /\
    forall i source, srcs !! i = Some source ->
      items !! i = Some (Elem (str "li") [] (Some i)
                           [Expr (get_opt source (str "type")); Text (str ": ");
                            Expr (get_opt source (str "name"))]).
Proof.
  intros Hsrcs Hne Hall m. split.
  - rewrite resume_answer by done. simpl. by rewrite Hsrcs.
  - destruct (map_from_total ChatPanel.render_source srcs 0) as [items Hitems].
    { intros j x Hj. eexists. apply render_source_normal.
      rewrite Forall_forall in Hall. apply Hall. by eapply list_elem_of_lookup_2. }
    exists items.
    destruct (map_from_lookup _ _ _ _ Hitems) as [Hlen Hlk].
    split; [|split; [exact Hlen|]].
    + unfold ChatPanel.render_message, ChatPanel.render_sources. simpl.
      destruct srcs as [|s0 srcs']; [done|]. 
      change (length_gt_zero (LenNat (List.length (s0 :: srcs')))) with true.
      simpl negb. cbv iota.
      unfold array_map. rewrite Hitems. reflexivity.
    + intros i source Hi. destruct (Hlk i source Hi) as [y [Hy Hf]].
      rewrite Hy. f_equal.
      rewrite render_source_normal in Hf; [by injection Hf|].
      rewrite Forall_forall in Hall. apply Hall. by eapply list_elem_of_lookup_2.
Qed.

End Props.

Lemma sources_rendered_in_payload_order_witness :
  exists items,
    List.length items = 2 /\
    items !! 0 = Some (Elem (str "li") [] (Some 0)
                         [Expr (VStr (str "Asset")); Text (str ": ");
                          Expr (VStr (str "DB-Server"))]).
Proof.
  destruct (@sources_rendered_in_payload_order example_engine
              [(str "answer", VStr (str "In Data-Center-1."));
               (str "sources", VArr two_sources)]
              two_sources (ui initial) 1 eq_refl)
    as [_ [items [_ [Hlen Hlk]]]].
  - discriminate.
  - repeat constructor.
  - exists items. split; [exact Hlen|]. exact (Hlk 0 _ eq_refl).
Defined.

End Rendering.

(** ** The graph view *)

Module Graph.
Import JSFacts Printing App Expected Examples Submission GraphVisualization.

Section Props.
Context `{Engine}.

Lemma find_specific (pre post : list value) (l : value) :
  Forall (fun g => g = VStr (str "Node")) pre ->
  l <> VStr (str "Node") ->
  List.find (fun l => strict_neq_str l (str "Node")) (pre ++ l :: post) = Some l.
Proof.
  intros Hpre Hl. induction Hpre as [|g pre -> _ IH]; simpl.
  - destruct l as [| | | |s| |]; simpl; try reflexivity.
    destruct (eqs s (str "Node")) eqn:Hs; [|reflexivity].
    apply eqs_true in Hs. congruence.
  - exact IH.
Qed.

Lemma find_generic (labels : list value) :
  Forall (fun g => g = VStr (str "Node")) labels ->
  List.find (fun l => strict_neq_str l (str "Node")) labels = None.
Proof. induction 1 as [|g labels -> _ IH]; simpl; [done | exact IH]. Qed.

Lemma is_tag_truthy (l : value) : is_tag l = true -> ToBoolean l = true.
Proof. by destruct l. Qed.

(** The properties the loop of [formatNodeTooltip] pushes a line for. *)
Lemma shown_properties_cons (e : jsstring * value) (props : list (jsstring * value)) :
  shown_properties (e :: props) =
    if shown_in_tooltip e then e :: shown_properties props else shown_properties props.
Proof.
  unfold shown_properties. rewrite filter_cons.
  destruct (shown_in_tooltip e) eqn:Hs; unfold shown_in_tooltip in Hs.
  - apply andb_true_iff in Hs as [H1 H2].
    apply negb_true_iff, eqs_false in H1, H2.
    by rewrite decide_True.
  - rewrite decide_False; [done|]. intros [H1 H2].
    apply eqs_false in H1, H2. by rewrite H1, H2 in Hs.
Qed.

Lemma property_lines_printable (props : list (jsstring * value)) :
  Forall (fun e => printable e.2 = true) (shown_properties props) ->
  property_lines props =
    Normal (map (fun e => e.1 ++ str ": " ++ text e.2) (shown_properties props)).
Proof.
  induction props as [|e props IH]; [done|].
  rewrite shown_properties_cons. cbn [property_lines].
  destruct (shown_in_tooltip e); [|exact IH].
  intros Hall. apply Forall_cons in Hall as [He Hrest].
  unfold tooltip_line, mbind, completion_bind.
  by rewrite (ToString_printable _ He), (IH Hrest).
Qed.

Lemma property_lines_throws (props : list (jsstring * value)) (e : thrown) :
  property_lines props = Throw e -> e = TypeError.
Proof.
  induction props as [|entry props IH]; [done|]. cbn [property_lines].
  destruct (shown_in_tooltip entry); [|exact IH].
  unfold tooltip_line, mbind, completion_bind.
  destruct (ToString entry.2) eqn:Ht.
  - destruct (property_lines props); [done|]. intros [= <-]. by apply IH.
  - intros [= <-]. by eapply ToString_throws.
Qed.

Lemma property_lines_unprintable (props : list (jsstring * value)) :
  Exists (fun e => printable e.2 = false) (shown_properties props) ->
  property_lines props = Throw TypeError.
Proof.
  intros Hex. destruct (property_lines props) as [lines|e] eqn:Hl.
  - exfalso. revert lines Hl Hex.
    induction props as [|entry props IH]; intros lines Hl Hex.
    { by apply Exists_nil in Hex. }
    rewrite shown_properties_cons in Hex. cbn [property_lines] in Hl.
    destruct (shown_in_tooltip entry); [|by eapply IH].
    unfold tooltip_line, mbind, completion_bind in Hl.
    destruct (ToString entry.2) eqn:Ht; [|done].
    destruct (property_lines props) eqn:Hrest; [|done].
    apply Exists_cons in Hex as [Hbad|Hex]; [|by eapply IH].
    rewrite (ToString_unprintable _ Hbad) in Ht. discriminate.
  - f_equal. by eapply property_lines_throws.
Qed.

(** What is drawn for a node once its primary label is known. *)
Lemma display_of_label (fields props : list (jsstring * value)) (label : value)
    (idx : nat) (c sh : jsstring) :
  primary_label (VObj fields) = Normal label ->
  printable label = true ->
  lookup_prop (str "properties") fields = VObj props ->
  Forall (fun e => printable e.2 = true) (shown_properties props) ->
  map_or_default colorMap (text label) = Some c ->
  map_or_default shapeMap (text label) = Some sh ->
  exists vn rest,
    visNode (VObj fields) idx = Normal vn /\
    background (color vn) = c /\
    shape vn = sh /\
    tooltip_lines (VObj fields) =
      Normal ((str "<b>" ++ text label ++ str "</b>") :: rest) /\
    formatNodeTooltip (VObj fields) =
      Normal (join_br ((str "<b>" ++ text label ++ str "</b>") :: rest)) /\
    title vn = join_br ((str "<b>" ++ text label ++ str "</b>") :: rest).
Proof.
  intros Hp Hlabel Hprops Hshown Hc Hsh.
  assert (Ht : tooltip_lines (VObj fields) =
            Normal ((str "<b>" ++ text label ++ str "</b>")
              :: map (fun e => e.1 ++ str ": " ++ text e.2) (shown_properties props))).
  { unfold tooltip_lines. rewrite Hp. cbn [get]. rewrite Hprops.
    unfold mbind, completion_bind. rewrite (ToString_printable _ Hlabel).
    cbn [entries]. by rewrite (property_lines_printable props Hshown). }
  assert (Hf : formatNodeTooltip (VObj fields) =
            Normal (join_br ((str "<b>" ++ text label ++ str "</b>")
              :: map (fun e => e.1 ++ str ": " ++ text e.2) (shown_properties props)))).
  { unfold formatNodeTooltip. by rewrite Ht. }
  eexists _, _. split; [|split; [|split; [|split; [exact Ht|split; [exact Hf|]]]]].
  - unfold visNode. rewrite Hp, Hf. cbn [get]. rewrite Hprops.
    unfold mbind, completion_bind. rewrite (ToString_printable _ Hlabel).
    cbn [get]. rewrite Hc, Hsh. reflexivity.
  - reflexivity.
  - reflexivity.
  - reflexivity.
Qed.

(** C7.  For a node whose labels are type tags and whose properties can
    be shown: the label used for display, at the head of the tooltip and
    to choose the color and the shape, is the first label that is not
    ['Node']; when every label is ['Node'], or there is none, it is
    ['Node'], drawn in the default color [#757575] and with the default
    shape [dot]. *)
Theorem primary_label_is_first_specific (fields : list (jsstring * value))
    (labels : list value) :
  lookup_prop (str "labels") fields = VArr labels ->
  Forall (fun l => is_tag l = true) labels ->
  let node := VObj fields in
  (forall pre l post,
     labels = pre ++ l :: post ->
     Forall (fun g => g = VStr (str "Node")) pre ->
     l <> VStr (str "Node") ->
     primary_label node = Normal l /\
     forall props idx c sh,
       lookup_prop (str "properties") fields = VObj props ->
       Forall (fun e => printable e.2 = true) (shown_properties props) ->
       map_or_default colorMap (text l) = Some c ->
       map_or_default shapeMap (text l) = Some sh ->
       exists vn rest,
         visNode node idx = Normal vn /\
         background (color vn) = c /\
         shape vn = sh /\
         formatNodeTooltip node =
           Normal (join_br ((str "<b>" ++ text l ++ str "</b>") :: rest)) /\
         title vn = join_br ((str "<b>" ++ text l ++ str "</b>") :: rest)) /\
  (Forall (fun g => g = VStr (str "Node")) labels ->
     primary_label node = Normal (VStr (str "Node")) /\
     forall props idx,
       lookup_prop (str "properties") fields = VObj props ->
       Forall (fun e => printable e.2 = true) (shown_properties props) ->
       exists vn rest,
         visNode node idx = Normal vn /\
         background (color vn) = str "#757575" /\
         shape vn = str "dot" /\
         formatNodeTooltip node = Normal (join_br (str "<b>Node</b>" :: rest)) /\
         title vn = join_br (str "<b>Node</b>" :: rest)).
Proof.
  intros Hlabels Htags node. split.
  - intros pre l post -> Hpre Hl.
    assert (Htag : is_tag l = true).
    { rewrite Forall_forall in Htags. apply Htags.
      apply elem_of_app. right. constructor. }
    assert (Hp : primary_label node = Normal l).
    { unfold primary_label, node. simpl. rewrite Hlabels. simpl.
      rewrite (find_specific pre post l Hpre Hl). simpl.
      unfold or_else. by rewrite is_tag_truthy. }
    split; [exact Hp|].
    intros props idx c sh Hprops Hshown Hc Hsh.
    destruct (display_of_label fields props l idx c sh) as (vn & rest & Hv & Hb & Hs & _ & Hf & Ht);
      try done.
    { by destruct l. }
    by exists vn, rest.
  - intros Hgeneric.
    assert (Hp : primary_label node = Normal (VStr (str "Node"))).
    { unfold primary_label, node. simpl. rewrite Hlabels. simpl.
      by rewrite (find_generic labels Hgeneric). }
    split; [exact Hp|].
    intros props idx Hprops Hshown.
    destruct (display_of_label fields props (VStr (str "Node")) idx
                (str "#757575") (str "dot")) as (vn & rest & Hv & Hb & Hs & _ & Hf & Ht);
      try done.
    by exists vn, rest.
Qed.

(** C4, as the code has it.  The tooltip of a node is a header with its
    primary label followed by one line [key: value] for each property, in
    the order of the properties, except the properties named [embedding]
    and [description], which are left out whatever their length or
    content.  A string value appears as it is.  The tooltip is produced
    exactly when the label and the values of the properties shown convert
    to strings; otherwise [formatNodeTooltip] throws a TypeError. *)
Theorem tooltip_omits_embedding_and_description (fields props : list (jsstring * value))
    (label : value) :
  primary_label (VObj fields) = Normal label ->
  lookup_prop (str "properties") fields = VObj props ->
  let header := str "<b>" ++ text label ++ str "</b>" in
  let lines := map (fun e => e.1 ++ str ": " ++ text e.2) (shown_properties props) in
  (printable label = true ->
   Forall (fun e => printable e.2 = true) (shown_properties props) ->
   tooltip_lines (VObj fields) = Normal (header :: lines) /\
   formatNodeTooltip (VObj fields) = Normal (join_br (header :: lines))) /\
  (printable label = false \/
   Exists (fun e => printable e.2 = false) (shown_properties props) ->
   formatNodeTooltip (VObj fields) = Throw TypeError) /\
  (forall s : jsstring, text (VStr s) = s).
Proof.
  intros Hp Hprops header lines. split; [|split; [|done]].
  - intros Hlabel Hshown.
    assert (Ht : tooltip_lines (VObj fields) = Normal (header :: lines)).
    { unfold tooltip_lines. rewrite Hp. cbn [get]. rewrite Hprops.
      unfold mbind, completion_bind. rewrite (ToString_printable _ Hlabel).
      cbn [entries]. by rewrite (property_lines_printable props Hshown). }
    split; [exact Ht|]. unfold formatNodeTooltip. by rewrite Ht.
  - intros Hbad. unfold formatNodeTooltip, tooltip_lines. rewrite Hp. cbn [get].
    rewrite Hprops. unfold mbind, completion_bind.
    destruct Hbad as [Hlabel|Hvalue].
    + by rewrite (ToString_unprintable _ Hlabel).
    + destruct (ToString label) eqn:Hl.
      * cbn [entries]. by rewrite (property_lines_unprintable props Hvalue).
      * f_equal. by eapply ToString_throws.
Qed.

Lemma visEdge_normal (rel : value) (idx : nat) :
  nullish rel = false ->
  exists e, visEdge rel idx = Normal e /\
    edge_id e = idx /\ from e = get_opt rel (str "source") /\
    to e = get_opt rel (str "target") /\ edge_label e = get_opt rel (str "type") /\
    arrows e = str "to".
Proof.
  intros Hn. unfold visEdge. rewrite !(get_get_opt _ _ Hn). simpl.
  eexists. split; [reflexivity|]. by repeat split.
Qed.

(** C8.  The relationships of the payload become the edges of the network
    one for one and in order: the edge at position [i] goes from the
    [source] of the relationship at position [i] to its [target], carries
    its [type] as label and an arrow at the [to] end.  With a node list
    that renders, these edges are the ones handed to the network. *)
Theorem one_directed_edge_per_relationship (rels : list value) :
  Forall (fun rel => nullish rel = false) rels ->
  exists es,
    visEdges (VArr rels) = Normal es /\
    List.length es = List.length rels /\
    (forall i rel, rels !! i = Some rel ->
       exists e, es !! i = Some e /\
         edge_id e = i /\
         from e = get_opt rel (str "source") /\
         to e = get_opt rel (str "target") /\
         edge_label e = get_opt rel (str "type") /\
         arrows e = str "to") /\
    (forall (fields : list (jsstring * value)) (n : value) (ns : list value)
            (vns : list vis_node) (r : refs),
       lookup_prop (str "nodes") fields = VArr (n :: ns) ->
       lookup_prop (str "relationships") fields = VArr rels ->
       visNodes (VArr (n :: ns)) = Normal vns ->
       container r = true ->
       effect (VObj fields) r =
         Normal (true, {| container := true;
                          network := Some {| nodes := vns; edges := es |} |})).
Proof.
  intros Hall.
  assert (Hrel : forall j x, rels !! j = Some x -> nullish x = false).
  { intros j x Hj. rewrite Forall_forall in Hall. apply Hall.
    by eapply list_elem_of_lookup_2. }
  destruct (map_from_total visEdge rels 0) as [es Hes].
  { intros j x Hj. destruct (visEdge_normal x (0 + j) (Hrel j x Hj)) as [e [He _]].
    by exists e. }
  exists es. destruct (map_from_lookup _ _ _ _ Hes) as [Hlen Hlk].
  split; [exact Hes|]. split; [exact Hlen|]. split.
  - intros i rel Hi. destruct (Hlk i rel Hi) as [e [He Hf]].
    exists e. split; [exact He|].
    destruct (visEdge_normal rel (0 + i) (Hrel i rel Hi)) as [e' [He' Hprops]].
    rewrite He' in Hf. injection Hf as <-. exact Hprops.
  - intros fields n ns vns r Hnodes Hrels Hvns Hc.
    unfold effect, visNodes, visEdges in *. simpl. rewrite Hc, Hnodes, Hrels. simpl.
    simpl in Hvns. rewrite Hvns. simpl. rewrite Hes. reflexivity.
Qed.

(** C5.  A graph payload whose node list is absent, falsy or empty makes
    the effect return at its guard: it completes normally, registers no
    cleanup and leaves the refs alone, so no network is built.  A message
    whose sources are absent or empty renders normally and without a
    sources block: in its place stands a value React draws nothing for. *)
Theorem empty_graph_is_not_an_error :
  (forall (graphData : value) (r : refs),
     let nodes := get_opt graphData (str "nodes") in
     ToBoolean nodes = false \/ nodes = VArr [] ->
     effect graphData r = Normal (false, r)) /\
  (forall (m : message) (index : nat),
     sources m = VUndef \/ sources m = VNull \/ sources m = VArr [] ->
     exists v,
       ChatPanel.render_message m index =
         Normal (Elem (str "div") (str "message " ++ type m) (Some index)
                   [Elem (str "div") (str "message-content") None [Expr (content m)];
                    Expr v]) /\
       (v = VUndef \/ v = VNull \/ v = VBool false)).
Proof.
  split.
  - intros graphData r nodes Hnodes. unfold effect.
    destruct (negb (ToBoolean graphData) || negb (container r)) eqn:Hg; [done|].
    apply orb_false_iff in Hg as [Hg _]. apply negb_false_iff in Hg.
    assert (Hn : nullish graphData = false) by by destruct graphData.
    rewrite !(get_get_opt _ _ Hn). simpl. fold nodes.
    destruct Hnodes as [->| ->]; reflexivity.
  - intros m index Hs. unfold ChatPanel.render_message, ChatPanel.render_sources.
    destruct Hs as [-> | [-> | ->]]; simpl; eexists; (split; [reflexivity|]); auto.
Qed.

End Props.

(** *** Worked examples *)

Lemma db_server_properties_printable :
  Forall (fun e : jsstring * value => printable e.2 = true)
    (shown_properties db_server_properties).
Proof.
  unfold db_server_properties. rewrite !shown_properties_cons. simpl.
  repeat constructor.
Qed.

Lemma primary_label_is_first_specific_witness :
  (primary_label db_server = Normal (VStr (str "Asset")) /\
   exists vn rest,
     @visNode example_engine db_server 0 = Normal vn /\
     background (color vn) = str "#4CAF50" /\
     shape vn = str "box" /\
     @formatNodeTooltip example_engine db_server =
       Normal (join_br (str "<b>Asset</b>" :: rest))) /\
  primary_label data_center = Normal (VStr (str "Node")).
Proof.
  split.
  - destruct (@primary_label_is_first_specific example_engine db_server_fields
                [VStr (str "Node"); VStr (str "Asset")] eq_refl) as [Hfirst _].
    { repeat constructor. }
    destruct (Hfirst [VStr (str "Node")] (VStr (str "Asset")) [] eq_refl)
      as [Hlabel Hdrawn].
    + repeat constructor.
    + discriminate.
    + split; [exact Hlabel|].
      destruct (Hdrawn db_server_properties 0 (str "#4CAF50") (str "box")
                  eq_refl db_server_properties_printable eq_refl eq_refl)
        as (vn & rest & Hv & Hb & Hs & Hf & _).
      by exists vn, rest.
  - destruct (@primary_label_is_first_specific example_engine data_center_fields
                [VStr (str "Node")] eq_refl) as [_ Hgeneric].
    { repeat constructor. }
    apply Hgeneric. repeat constructor.
Defined.

(** C4 as stated fails: a description of two characters, shorter than any
    sensible truncation length, is not shown; the tooltip has no line for
    it at all. *)
Lemma short_description_not_shown :
  get_opt (get_opt db_server (str "properties")) (str "description") = VStr (str "db") /\
  @tooltip_lines example_engine db_server =
    Normal [str "<b>Asset</b>"; str "name: DB-Server"; str "status: active"] /\
  @formatNodeTooltip example_engine db_server =
    Normal (str "<b>Asset</b><br/>name: DB-Server<br/>status: active").
Proof. repeat split. Qed.

Lemma tooltip_omits_embedding_and_description_witness :
  @formatNodeTooltip example_engine db_server =
    Normal (str "<b>Asset</b><br/>name: DB-Server<br/>status: active").
Proof.
  destruct (@tooltip_omits_embedding_and_description example_engine
              db_server_fields db_server_properties (VStr (str "Asset"))
              eq_refl eq_refl) as [Hshown _].
  destruct (Hshown eq_refl db_server_properties_printable) as [_ Hformat].
  etransitivity; [exact Hformat|].
  unfold db_server_properties. rewrite !shown_properties_cons. reflexivity.
Defined.

Lemma one_directed_edge_per_relationship_witness :
  exists e,
    visEdges (VArr [located_in]) = Normal [e] /\
    from e = VStr (str "4:abc:0") /\ to e = VStr (str "4:abc:7") /\
    edge_label e = VStr (str "LOCATED_IN") /\ arrows e = str "to".
Proof.
  destruct (@one_directed_edge_per_relationship example_engine [located_in])
    as [es [Hes [Hlen [Hlk _]]]].
  { repeat constructor. }
  destruct (Hlk 0 located_in eq_refl) as [e [He [_ [Hfrom [Hto [Hlabel Harrows]]]]]].
  exists e. split; [|by repeat split].
  rewrite Hes. f_equal.
  destruct es as [|e0 [|e1 es]]; simpl in Hlen; try discriminate.
  simpl in He. by injection He as ->.
Defined.

Lemma empty_graph_is_not_an_error_witness :
  @effect example_engine (VObj [(str "nodes", VArr []); (str "relationships", VArr [])])
    {| container := true; network := None |}
    = Normal (false, {| container := true; network := None |}) /\
  exists v,
    @ChatPanel.render_message example_engine
      {| type := str "assistant"; content := VStr (str "No relevant data found.");
         sources := VArr [] |} 1 =
      Normal (Elem (str "div") (str "message assistant") (Some 1)
                [Elem (str "div") (str "message-content") None
                   [Expr (VStr (str "No relevant data found."))];
                 Expr v]).
Proof.
  destruct (@empty_graph_is_not_an_error example_engine) as [Heffect Hrender].
  split.
  - apply Heffect. right. reflexivity.
  - destruct (Hrender {| type := str "assistant";
                         content := VStr (str "No relevant data found.");
                         sources := VArr [] |} 1) as [v [Hv _]].
    { right. right. reflexivity. }
    exists v. exact Hv.
Defined.

End Graph.

(** ** The response envelope *)

Module Contract.
Import JSFacts App Envelope Expected Examples Submission GraphVisualization.

(** *** Reading a restricted object *)

Lemma lookup_keep_fields (sh : layout) (f : value -> value)
    (kvs : list (jsstring * value)) (k : jsstring) :
  assoc k sh = Some f -> f VUndef = VUndef ->
  lookup_prop k (keep_fields sh kvs) = f (lookup_prop k kvs).
Proof.
  intros Hk Hf. induction kvs as [|[k' v] kvs IH]; simpl; [done|].
  destruct (eqs k' k) eqn:Hkk.
  - apply eqs_true in Hkk. subst k'. rewrite Hk. simpl. by rewrite eqs_refl.
  - destruct (assoc k' sh); simpl; [by rewrite Hkk|done].
Qed.

(** A kept field reads as the kept part of the original field. *)
Lemma get_opt_restrict (sh : layout) (f : value -> value) (v : value) (k : jsstring) :
  assoc k sh = Some f -> f VUndef = VUndef ->
  get_opt (restrict sh v) k = f (get_opt v k).
Proof.
  intros Hk Hf. destruct v; simpl; try done.
  by apply lookup_keep_fields.
Qed.

Lemma nullish_restrict (sh : layout) (v : value) : nullish (restrict sh v) = nullish v.
Proof. by destruct v. Qed.

Lemma ToBoolean_restrict (sh : layout) (v : value) : ToBoolean (restrict sh v) = ToBoolean v.
Proof. by destruct v. Qed.

Lemma ToBoolean_each (f : value -> value) (v : value) : ToBoolean (each f v) = ToBoolean v.
Proof. by destruct v. Qed.

Lemma get_length_each (f : value -> value) (v : value) : get_length (each f v) = get_length v.
Proof. destruct v; simpl; try done. by rewrite length_map. Qed.

Lemma get_restrict (sh : layout) (v : value) (k : jsstring) :
  assoc k sh = Some whole -> get (restrict sh v) k = get v k.
Proof.
  intros Hk. destruct (nullish v) eqn:Hn.
  - by destruct v.
  - rewrite !get_get_opt by by rewrite ?nullish_restrict.
    by rewrite (get_opt_restrict sh whole).
Qed.

Lemma each_restrict_undef (sh : layout) : each (restrict sh) VUndef = VUndef.
Proof. reflexivity. Qed.

Lemma restrict_undef (sh : layout) : restrict sh VUndef = VUndef.
Proof. reflexivity. Qed.

Lemma map_from_app {A B} (f : A -> nat -> completion B) (l1 l2 : list A) :
  forall i, map_from f i (l1 ++ l2) =
    ys1 ← map_from f i l1; ys2 ← map_from f (i + List.length l1) l2; Normal (ys1 ++ ys2).
Proof.
  induction l1 as [|a l1 IH]; intros i; simpl.
  - rewrite Nat.add_0_r. unfold mbind, completion_bind.
    by destruct (map_from f i l2).
  - unfold mbind, completion_bind in *. destruct (f a i); [|done].
    rewrite IH. replace (S i + List.length l1) with (i + S (List.length l1)) by lia.
    destruct (map_from f (S i) l1); [|done].
    by destruct (map_from f (i + S (List.length l1)) l2).
Qed.

(** *** Consuming a restricted payload *)

Section Restricted.
Context `{Engine}.
(** Layouts for the payload, a source, the graph, a node and a
    relationship that keep at least the fields the code reads. *)
Variables E S G N R : layout.
Hypothesis E_answer : assoc (str "answer") E = Some whole.
Hypothesis E_sources : assoc (str "sources") E = Some (each (restrict S)).
Hypothesis E_graph : assoc (str "graph_data") E = Some (restrict G).
Hypothesis S_type : assoc (str "type") S = Some whole.
Hypothesis S_name : assoc (str "name") S = Some whole.
Hypothesis G_nodes : assoc (str "nodes") G = Some (each (restrict N)).
Hypothesis G_relationships : assoc (str "relationships") G = Some (each (restrict R)).
Hypothesis N_id : assoc (str "id") N = Some whole.
Hypothesis N_labels : assoc (str "labels") N = Some whole.
Hypothesis N_properties : assoc (str "properties") N = Some whole.
Hypothesis R_source : assoc (str "source") R = Some whole.
Hypothesis R_target : assoc (str "target") R = Some whole.
Hypothesis R_type : assoc (str "type") R = Some whole.

Lemma render_source_restrict (source : value) (idx : nat) :
  ChatPanel.render_source (restrict S source) idx = ChatPanel.render_source source idx.
Proof.
  unfold ChatPanel.render_source.
  by rewrite (get_restrict S _ _ S_type), (get_restrict S _ _ S_name).
Qed.

Lemma render_sources_restrict (srcs : value) :
  ChatPanel.render_sources (each (restrict S) srcs) = ChatPanel.render_sources srcs.
Proof.
  unfold ChatPanel.render_sources.
  rewrite ToBoolean_each, get_length_each.
  destruct (negb (ToBoolean srcs)) eqn:Ht; [by destruct srcs|].
  assert (Hmap : array_map ChatPanel.render_source (each (restrict S) srcs)
                 = array_map ChatPanel.render_source srcs).
  { destruct srcs; simpl; try done.
    apply map_from_ext. intros x i _. apply render_source_restrict. }
  by rewrite Hmap.
Qed.

Lemma primary_label_restrict (node : value) :
  primary_label (restrict N node) = primary_label node.
Proof. unfold primary_label. by rewrite (get_restrict N _ _ N_labels). Qed.

Lemma formatNodeTooltip_restrict (node : value) :
  formatNodeTooltip (restrict N node) = formatNodeTooltip node.
Proof.
  unfold formatNodeTooltip, tooltip_lines.
  by rewrite primary_label_restrict, (get_restrict N _ _ N_properties).
Qed.

Lemma visNode_restrict (node : value) (idx : nat) :
  visNode (restrict N node) idx = visNode node idx.
Proof.
  unfold visNode.
  by rewrite primary_label_restrict, formatNodeTooltip_restrict,
    (get_restrict N _ _ N_properties), (get_restrict N _ _ N_id).
Qed.

Lemma visEdge_restrict (rel : value) (idx : nat) :
  visEdge (restrict R rel) idx = visEdge rel idx.
Proof.
  unfold visEdge.
  by rewrite (get_restrict R _ _ R_source), (get_restrict R _ _ R_target),
    (get_restrict R _ _ R_type).
Qed.

Lemma effect_restrict (graph_data : value) (r : refs) :
  effect (restrict G graph_data) r = effect graph_data r.
Proof.
  unfold effect. rewrite ToBoolean_restrict.
  destruct (negb (ToBoolean graph_data) || negb (container r)) eqn:Hg; [done|].
  apply orb_false_iff in Hg as [Hg _]. apply negb_false_iff in Hg.
  assert (Hn : nullish graph_data = false) by by destruct graph_data.
  rewrite !get_get_opt by by rewrite ?nullish_restrict.
  rewrite (get_opt_restrict G _ _ _ G_nodes (each_restrict_undef N)).
  rewrite (get_opt_restrict G _ _ _ G_relationships (each_restrict_undef R)).
  simpl. rewrite ToBoolean_each, get_length_each.
  assert (Hvn : visNodes (each (restrict N) (get_opt graph_data (str "nodes")))
                = visNodes (get_opt graph_data (str "nodes"))).
  { unfold visNodes. destruct (get_opt graph_data (str "nodes")); simpl; try done.
    apply map_from_ext. intros x i _. apply visNode_restrict. }
  assert (Hve : visEdges (each (restrict R) (get_opt graph_data (str "relationships")))
                = visEdges (get_opt graph_data (str "relationships"))).
  { unfold visEdges. destruct (get_opt graph_data (str "relationships")); simpl; try done.
    apply map_from_ext. intros x i _. apply visEdge_restrict. }
  by rewrite Hvn, Hve.
Qed.

Lemma consume_restrict (answerData : value) (w : world) (r : refs) :
  consume (restrict E answerData) w r = consume answerData w r.
Proof.
  unfold consume. destruct (nullish answerData) eqn:Hn.
  { by destruct answerData. }
  rewrite !resume_answer by by rewrite ?nullish_restrict.
  unfold view, answered. simpl.
  rewrite (get_opt_restrict E _ _ _ E_answer eq_refl).
  rewrite (get_opt_restrict E _ _ _ E_sources (each_restrict_undef S)).
  rewrite (get_opt_restrict E _ _ _ E_graph (restrict_undef G)).
  rewrite ToBoolean_restrict. f_equal.
  - unfold ChatPanel.render_messages. rewrite !map_from_app. simpl.
    unfold ChatPanel.render_message at 1 3. simpl.
    by rewrite render_sources_restrict.
  - destruct (ToBoolean (get_opt answerData (str "graph_data"))); [|done].
    apply effect_restrict.
Qed.

End Restricted.

(** The paths of [read_paths] are fields that [read_layout] keeps, and
    those of [unread_paths] are fields of the envelope that it drops. *)
Lemma read_paths_kept_by_read_layout :
  Forall (fun p => without p (restrict read_layout (payload "q" "active"))
                     <> restrict read_layout (payload "q" "active")) read_paths /\
  Forall (fun p => without p (restrict envelope_layout (payload "q" "active"))
                     <> restrict envelope_layout (payload "q" "active") /\
                   restrict read_layout (without p (payload "q" "active"))
                     = restrict read_layout (payload "q" "active")) unread_paths.
Proof.
  split.
  - repeat (apply List.Forall_cons; [vm_compute; discriminate|]). apply List.Forall_nil.
  - repeat (apply List.Forall_cons; [split; [vm_compute; discriminate|reflexivity]|]).
    apply List.Forall_nil.
Qed.

(** Each field of [read_paths] is read: the page shows the example
    payload differently once the field is taken out of it. *)
Lemma read_paths_are_read `{Engine} (p : path) :
  In p read_paths ->
  consume (without p (payload "q" "active")) (ui initial) mounted
    <> consume (payload "q" "active") (ui initial) mounted.
Proof.
  intros Hin. simpl in Hin.
  repeat (destruct Hin as [<-|Hin]; [vm_compute; discriminate|]).
  destruct Hin.
Qed.

(** C1, as the code has it.  The question goes out under the name
    [question].  Of the response the frontend reads [answer], [sources]
    with the [type] and [name] of each entry, and [graph_data] with
    [nodes] ([id], [labels], [properties] of each) and [relationships]
    ([source], [target], [type] of each), under exactly these names.
    It reads nothing else: what the page shows for a payload is what it
    shows for the payload cut down to these fields, and so also for the
    payload cut down to the envelope of the specification.  And it reads
    each of them: for every one of these fields there is a payload that
    the page shows differently once the field is taken out. *)
Theorem frontend_reads_envelope_fields `{Engine} (API_URL question : jsstring)
    (answerData : value) (w : world) (r : refs) :
  (forall request w',
     handleSubmit_start API_URL question w = (Normal (Some request), w') ->
     ChatPanel.body request = VObj [(str "question", VStr question)]) /\
  consume (restrict read_layout answerData) w r = consume answerData w r /\
  consume (restrict envelope_layout answerData) w r = consume answerData w r /\
  (forall p, In p read_paths ->
     exists a w0 r0, consume (without p a) w0 r0 <> consume a w0 r0).
Proof.
  split; [|split; [|split]].
  - intros request w'.
    destruct (decide (trim question = [])) as [Hq|Hq].
    + rewrite (handleSubmit_start_blank API_URL question w Hq). discriminate.
    + rewrite (handleSubmit_start_nonblank API_URL question w Hq).
      by intros [= <- _].
  - by apply (consume_restrict read_layout read_source_layout graph_layout
                node_layout relationship_layout).
  - by apply (consume_restrict envelope_layout source_layout graph_layout
                node_layout relationship_layout).
  - intros p Hin. exists (payload "q" "active"), (ui initial), mounted.
    by apply read_paths_are_read.
Qed.

(** *** Worked examples *)

(** C1 as stated fails for two of the names: the [question] of the
    response and the [properties] of a source are not read.  Two payloads
    that differ in both are shown in the same way. *)
Lemma response_question_and_source_properties_not_read :
  payload "Where is the DB-Server located?" "active"
    <> payload "Who owns the DB-Server?" "retired" /\
  @consume example_engine (payload "Where is the DB-Server located?" "active")
      (ui initial) mounted
    = @consume example_engine (payload "Who owns the DB-Server?" "retired")
        (ui initial) mounted.
Proof.
  split; [discriminate|].
  vm_compute. reflexivity.
Qed.

Lemma frontend_reads_envelope_fields_witness :
  ((handleSubmit_start (str "http://localhost:8000")
      (str "Where is the DB-Server located?") (ui initial)).1 = Normal (Some ask) /\
   ChatPanel.body ask =
     VObj [(str "question", VStr (str "Where is the DB-Server located?"))]) /\
  In [str "sources"; str "name"] read_paths /\
  exists a w0 r0,
    @consume example_engine (without [str "sources"; str "name"] a) w0 r0
      <> @consume example_engine a w0 r0.
Proof.
  destruct (@frontend_reads_envelope_fields example_engine (str "http://localhost:8000")
              (str "Where is the DB-Server located?")
              (payload "Where is the DB-Server located?" "active") (ui initial) mounted)
    as [Hrequest [_ [_ Hread]]].
  assert (Hin : In [str "sources"; str "name"] read_paths).
  { unfold read_paths. right. right. left. reflexivity. }
  split; [split; [reflexivity|]|split; [exact Hin|]].
  - apply (Hrequest ask (submitted (str "http://localhost:8000")
                           (str "Where is the DB-Server located?") (ui initial))).
    reflexivity.
  - exact (Hread _ Hin).
Defined.

End Contract.

(** ** The conversation as a whole *)

Module Conversation.
Import JSFacts App Expected Examples Measures Submission.

Section Props.
Variable API_URL : jsstring.

(** *** How a settled request is handled, case by case *)

Lemma resume_readable (response : value) (w : world) :
  nullish response = false ->
  nullish (get_opt response (str "data")) = false ->
  handleSubmit_resume (Resolved response) w
    = (Normal (), answered (get_opt response (str "data")) w).
Proof.
  intros Hr Hd.
  unfold handleSubmit_resume, ChatPanel.handleSubmit_resume, try_catch_finally,
    handleNewAnswer, answered.
  run. rewrite (get_get_opt _ _ Hr). simpl.
  rewrite !(get_get_opt _ _ Hd). simpl.
  destruct (ToBoolean (get_opt (get_opt response (str "data")) (str "graph_data")));
    simpl; unfold record_call; simpl; rewrite <- !app_assoc; reflexivity.
Qed.

Lemma resume_unreadable (response : value) (w : world) :
  nullish response = true \/ nullish (get_opt response (str "data")) = true ->
  handleSubmit_resume (Resolved response) w
    = (Normal (), reported TypeError (VStr ChatPanel.fallback_error) w).
Proof.
  intros Hr.
  unfold handleSubmit_resume, ChatPanel.handleSubmit_resume, try_catch_finally, reported.
  run. destruct (nullish response) eqn:Hn.
  - destruct (get_opt_nullish response (str "data") Hn) as [-> _]. simpl.
    unfold record_call; simpl. by rewrite <- !app_assoc.
  - destruct Hr as [?|Hd]; [done|].
    rewrite (get_get_opt _ _ Hn). simpl.
    destruct (get_opt_nullish _ (str "answer") Hd) as [-> _]. simpl.
    unfold record_call; simpl. by rewrite <- !app_assoc.
Qed.

Lemma resume_rejected (error : value) (w : world) :
  nullish error = false ->
  handleSubmit_resume (Rejected error) w
    = (Normal (),
       reported (Rejection error)
         (or_else (detail_of error) (VStr ChatPanel.fallback_error)) w).
Proof.
  intros Hn.
  unfold handleSubmit_resume, ChatPanel.handleSubmit_resume, try_catch_finally, reported.
  run. rewrite (get_get_opt _ _ Hn). simpl.
  unfold record_call; simpl. by rewrite <- !app_assoc.
Qed.

Lemma resume_rejected_nullish (error : value) (w : world) :
  nullish error = true ->
  handleSubmit_resume (Rejected error) w
    = (Throw TypeError, unreported (Rejection error) w).
Proof.
  intros Hn.
  unfold handleSubmit_resume, ChatPanel.handleSubmit_resume, try_catch_finally, unreported.
  run. destruct (get_opt_nullish error (str "response") Hn) as [-> _]. simpl.
  unfold record_call; simpl. by rewrite <- !app_assoc.
Qed.

(** The four ways a request can end. *)
Lemma resume_cases (o : outcome) (w : world) :
  (exists answerData,
     handleSubmit_resume o w = (Normal (), answered answerData w)) \/
  (exists logged content,
     handleSubmit_resume o w = (Normal (), reported logged content w)) \/
  (exists error,
     o = Rejected error /\ nullish error = true /\
     handleSubmit_resume o w = (Throw TypeError, unreported (Rejection error) w)).
Proof.
  destruct o as [response|error].
  - destruct (nullish response) eqn:Hr.
    + right. left. eexists _, _. apply resume_unreadable. by left.
    + destruct (nullish (get_opt response (str "data"))) eqn:Hd.
      * right. left. eexists _, _. apply resume_unreadable. by right.
      * left. eexists. by apply resume_readable.
  - destruct (nullish error) eqn:He.
    + right. right. exists error. by rewrite resume_rejected_nullish.
    + right. left. eexists _, _. by apply resume_rejected.
Qed.

Lemma handleSubmit_run (question : jsstring) (o : outcome) (w : world) :
  trim question <> [] ->
  handleSubmit API_URL question o w
    = handleSubmit_resume o (submitted API_URL question w).
Proof.
  intros Hq. unfold handleSubmit, ChatPanel.handleSubmit, mbind, M_bind.
  change (ChatPanel.handleSubmit_start API_URL setIsLoading question w)
    with (handleSubmit_start API_URL question w).
  by rewrite (handleSubmit_start_nonblank _ _ _ Hq).
Qed.

Lemma handleSubmit_run_blank (question : jsstring) (o : outcome) (w : world) :
  trim question = [] -> handleSubmit API_URL question o w = (Normal (), w).
Proof.
  intros Hq. unfold handleSubmit, ChatPanel.handleSubmit, mbind, M_bind.
  change (ChatPanel.handleSubmit_start API_URL setIsLoading question w)
    with (handleSubmit_start API_URL question w).
  by rewrite (handleSubmit_start_blank _ _ _ Hq).
Qed.

(** *** Extras on submission *)

(** X1.  [handleSubmit] ignores a question exactly when every code unit
    of it is white space or a line terminator (the empty question
    included); any other question is sent, untrimmed, as the [question]
    field of one POST to [API_URL + "/ask"]. *)
Theorem question_rejected_iff_blank (question : jsstring) (w : world) :
  (Forall (fun c => is_space c = true) question <->
   handleSubmit_start API_URL question w = (Normal None, w)) /\
  (~ Forall (fun c => is_space c = true) question ->
   (handleSubmit_start API_URL question w).1 =
     Normal (Some {| ChatPanel.url := API_URL ++ str "/ask";
                     ChatPanel.body := VObj [(str "question", VStr question)] |})).
Proof.
  split; [split|].
  - intros Hs. apply handleSubmit_start_blank. by apply trim_spaces.
  - intros Hr. apply trim_nil_inv.
    destruct (decide (trim question = [])) as [Hq|Hq]; [done|].
    rewrite (handleSubmit_start_nonblank _ _ _ Hq) in Hr. discriminate.
  - intros Hs.
    assert (Hq : trim question <> []) by (intros Hq; by apply Hs, trim_nil_inv).
    by rewrite (handleSubmit_start_nonblank _ _ _ Hq).
Qed.

(** X2.  The Send button is disabled exactly when [handleSubmit] would
    ignore the input; and after a submission that issued a request the
    input is empty, so the button is disabled again. *)
Theorem send_button_mirrors_guard (inputValue' : jsstring) (w : world) :
  (ChatPanelControls.send_disabled inputValue' = true <->
   handleSubmit_start API_URL inputValue' w = (Normal None, w)) /\
  (forall question r w',
     handleSubmit_start API_URL question w = (Normal (Some r), w') ->
     inputValue w' = [] /\ ChatPanelControls.send_disabled (inputValue w') = true).
Proof.
  split.
  - unfold ChatPanelControls.send_disabled.
    destruct (decide (trim inputValue' = [])) as [Hq|Hq].
    + rewrite (blank_guard _ Hq), (handleSubmit_start_blank _ _ _ Hq). done.
    + rewrite (nonblank_guard _ Hq), (handleSubmit_start_nonblank _ _ _ Hq).
      split; discriminate.
  - intros question r w' Hstart.
    destruct (decide (trim question = [])) as [Hq|Hq].
    + rewrite (handleSubmit_start_blank _ _ _ Hq) in Hstart. discriminate.
    + rewrite (handleSubmit_start_nonblank _ _ _ Hq) in Hstart.
      injection Hstart as _ <-. split; reflexivity.
Qed.

(** X3.  Pressing Enter twice in a row sends at most one request: whatever
    the first Enter did, the second finds the input blank, issues nothing
    and changes nothing.  Any other key, and Enter with Shift, never
    submits. *)
Theorem second_enter_is_ignored (w : world) :
  let press := ChatPanelControls.onKeyPress API_URL setIsLoading in
  (let w1 := (press (str "Enter") false w).2 in
   press (str "Enter") false w1 = (Normal None, w1)) /\
  (forall key shiftKey,
     key <> str "Enter" \/ shiftKey = true -> press key shiftKey w = (Normal None, w)).
Proof.
  split.
  - unfold ChatPanelControls.onKeyPress. simpl.
    change (ChatPanel.handleSubmit_start API_URL setIsLoading)
      with (handleSubmit_start API_URL).
    destruct (decide (trim (inputValue w) = [])) as [Hq|Hq].
    + rewrite (handleSubmit_start_blank _ _ _ Hq). simpl.
      by rewrite (handleSubmit_start_blank _ _ _ Hq).
    + rewrite (handleSubmit_start_nonblank _ _ _ Hq). simpl.
      by apply handleSubmit_start_blank.
  - intros key shiftKey Hk. unfold ChatPanelControls.onKeyPress.
    destruct Hk as [Hk| ->].
    + apply eqs_false in Hk. by rewrite Hk.
    + by rewrite andb_false_r.
Qed.

(** X4.  One exchange adds exactly two messages after the ones already
    there: the user's question as typed, then one reply, of type
    [assistant] or [error].  This holds however the request settles, as
    long as a rejection carries an error that is not [null] or
    [undefined]. *)
Theorem exchange_appends_question_and_reply (question : jsstring) (o : outcome)
    (w : world) :
  trim question <> [] ->
  (forall error, o = Rejected error -> nullish error = false) ->
  exists reply,
    (handleSubmit API_URL question o w).1 = Normal () /\
    messages (handleSubmit API_URL question o w).2 =
      messages w ++
        [{| type := str "user"; content := VStr question; sources := VUndef |}; reply] /\
    (type reply = str "assistant" \/ type reply = str "error").
Proof.
  intros Hq Ho. rewrite (handleSubmit_run _ _ _ Hq).
  destruct (resume_cases o (submitted API_URL question w))
    as [[a ->]|[[l [c ->]]|[e [-> [He _]]]]].
  - eexists. split; [reflexivity|]. simpl. rewrite <- app_assoc. split; [reflexivity|].
    by left.
  - eexists. split; [reflexivity|]. simpl. rewrite <- app_assoc. split; [reflexivity|].
    by right.
  - by rewrite (Ho e eq_refl) in He.
Qed.

Lemma posts_app (a b : list call) : posts (a ++ b) = posts a + posts b.
Proof. unfold posts. by rewrite List.filter_app, length_app. Qed.

Lemma resume_posts (o : outcome) (w : world) :
  posts (calls (handleSubmit_resume o w).2) = posts (calls w).
Proof.
  destruct (resume_cases o w) as [[a ->]|[[l [c ->]]|[e [_ [_ ->]]]]]; simpl;
    rewrite ?posts_app; simpl.
  - destruct (ToBoolean (get_opt a (str "graph_data"))); unfold posts; simpl; lia.
  - unfold posts; simpl; lia.
  - unfold posts; simpl; lia.
Qed.

(** X5.  A question costs exactly one request: a run of [handleSubmit]
    issues one POST for a question that is not blank and none for a blank
    one, and handling the response or the failure never issues another
    (no retry), whatever the outcome. *)
Theorem one_post_per_question (question : jsstring) (o : outcome) (w : world) :
  posts (calls (handleSubmit API_URL question o w).2) =
    posts (calls w) + (if decide (trim question = []) then 0 else 1) /\
  posts (calls (handleSubmit_resume o w).2) = posts (calls w).
Proof.
  split; [|apply resume_posts].
  destruct (decide (trim question = [])) as [Hq|Hq].
  - rewrite (handleSubmit_run_blank _ _ _ Hq). simpl. lia.
  - rewrite (handleSubmit_run _ _ _ Hq), resume_posts. simpl.
    rewrite posts_app. unfold posts. simpl. lia.
Qed.

(** X6.  A response that arrives but has no [data] to read (the response
    or its [data] is [null] or [undefined]) is reported like a failure: the
    fixed sentence is appended as an [error] message after the user's
    question, the graph on display is kept, and loading ends. *)
Theorem unreadable_response_is_reported (question : jsstring) (response : value)
    (w : world) :
  trim question <> [] ->
  nullish response = true \/ nullish (get_opt response (str "data")) = true ->
  let w' := (handleSubmit API_URL question (Resolved response) w).2 in
  messages w' =
    messages w ++
      [{| type := str "user"; content := VStr question; sources := VUndef |};
       {| type := str "error";
          content := VStr (str "Failed to get answer. Please try again.");
          sources := VUndef |}] /\
  graphData w' = graphData w /\
  isLoading w' = false.
Proof.
  intros Hq Hr. simpl.
  rewrite (handleSubmit_run _ _ _ Hq), (resume_unreadable _ _ Hr). simpl.
  by rewrite <- app_assoc.
Qed.

Lemma resume_graph (o : outcome) (w : world) :
  graphData (handleSubmit_resume o w).2 = graphData w \/
  ToBoolean (graphData (handleSubmit_resume o w).2) = true.
Proof.
  destruct (resume_cases o w) as [[a ->]|[[l [c ->]]|[e [_ [_ ->]]]]]; simpl;
    [|by left|by left].
  destruct (ToBoolean (get_opt a (str "graph_data"))) eqn:Hg; [by right|by left].
Qed.

Lemma graph_invariant (s : system) :
  reachable API_URL s ->
  graphData (ui s) = VNull \/ ToBoolean (graphData (ui s)) = true.
Proof.
  revert s.
  apply (rtc_ind_r (fun s => graphData (ui s) = VNull \/
                            ToBoolean (graphData (ui s)) = true)); [by left|].
  intros s1 s2 _ Hstep IH.
  destruct Hstep as [s1|s1 text|s1 question|s1 i o Hi]; simpl; try exact IH.
  - unfold submit.
    destruct (decide (trim question = [])) as [Hq|Hq].
    + by rewrite (handleSubmit_start_blank _ _ _ Hq).
    + by rewrite (handleSubmit_start_nonblank _ _ _ Hq).
  - destruct (resume_graph o (ui s1)) as [-> | Ht]; [exact IH | by right].
Qed.


End Props.
Lemma question_rejected_iff_blank_witness :
  handleSubmit_start (str "http://localhost:8000") [9; 32; 160]%N (ui initial)
    = (Normal None, ui initial) /\
  (handleSubmit_start (str "http://localhost:8000") (str " hi ") (ui initial)).1 =
    Normal (Some {| ChatPanel.url := str "http://localhost:8000/ask";
                    ChatPanel.body := VObj [(str "question", VStr (str " hi "))] |}).
Proof.
  split.
  - destruct (question_rejected_iff_blank (str "http://localhost:8000")
                [9; 32; 160]%N (ui initial)) as [[Hblank _] _].
    apply Hblank. repeat constructor.
  - destruct (question_rejected_iff_blank (str "http://localhost:8000")
                (str " hi ") (ui initial)) as [_ Hsent].
    apply Hsent. intros Hs. inversion Hs as [|c l _ Hrest]; subst.
    inversion Hrest as [|c' l' Hh _]; subst. discriminate Hh.
Defined.

Lemma send_button_mirrors_guard_witness :
  ChatPanelControls.send_disabled
    (inputValue (submitted (str "http://localhost:8000") (str "hi") (ui initial))) = true.
Proof.
  destruct (send_button_mirrors_guard (str "http://localhost:8000") (str "hi") (ui initial))
    as [_ Hafter].
  apply (Hafter (str "hi") ask_hi (submitted (str "http://localhost:8000") (str "hi") (ui initial))).
  reflexivity.
Defined.

Lemma second_enter_is_ignored_witness :
  ChatPanelControls.onKeyPress (str "http://localhost:8000") setIsLoading
    (str "a") false (ui initial) = (Normal None, ui initial).
Proof.
  destruct (second_enter_is_ignored (str "http://localhost:8000") (ui initial))
    as [_ Hother].
  apply Hother. left. discriminate.
Defined.

Lemma exchange_appends_question_and_reply_witness :
  exists reply,
    messages (handleSubmit (str "http://localhost:8000") (str "hi")
                (Rejected server_error) (ui initial)).2 =
      [{| type := str "user"; content := VStr (str "hi"); sources := VUndef |}; reply].
Proof.
  destruct (exchange_appends_question_and_reply (str "http://localhost:8000") (str "hi")
              (Rejected server_error) (ui initial)) as [reply [_ [Hm _]]].
  - discriminate.
  - intros error [= <-]. reflexivity.
  - exists reply. exact Hm.
Defined.

Lemma unreadable_response_is_reported_witness :
  isLoading (handleSubmit (str "http://localhost:8000") (str "hi")
               (Resolved (VObj [(str "status", VStr (str "204"))])) (ui initial)).2 = false.
Proof.
  apply (unreadable_response_is_reported (str "http://localhost:8000") (str "hi")
           (VObj [(str "status", VStr (str "204"))]) (ui initial)).
  - discriminate.
  - right. reflexivity.
Defined.


End Conversation.

(** ** Drawing the graph *)

Module Drawing.
Import JSFacts Printing App Expected Examples Measures Submission GraphVisualization Graph.

(** *** darkenColor *)

Lemma hex_value_table (c : N) (d : Z) : hex_value c = Some d -> In (c, d) hex_table.
Proof.
  unfold hex_value. intros Hc.
  destruct ((48 <=? c)%N && (c <=? 57)%N) eqn:H1.
  { apply andb_true_iff in H1 as [Hlo Hhi].
    apply N.leb_le in Hlo, Hhi. injection Hc as <-.
    assert (Hcases : (c = 48 \/ c = 49 \/ c = 50 \/ c = 51 \/ c = 52 \/ c = 53 \/
                      c = 54 \/ c = 55 \/ c = 56 \/ c = 57)%N) by lia.
    unfold hex_table.
    repeat (destruct Hcases as [-> | Hcases]; [simpl; tauto|]).
    subst c. simpl. tauto. }
  destruct ((97 <=? c)%N && (c <=? 102)%N) eqn:H2.
  { apply andb_true_iff in H2 as [Hlo Hhi].
    apply N.leb_le in Hlo, Hhi. injection Hc as <-.
    assert (Hcases : (c = 97 \/ c = 98 \/ c = 99 \/ c = 100 \/ c = 101 \/ c = 102)%N)
      by lia.
    unfold hex_table.
    repeat (destruct Hcases as [-> | Hcases]; [simpl; tauto|]).
    subst c. simpl. tauto. }
  destruct ((65 <=? c)%N && (c <=? 70)%N) eqn:H3; [|discriminate].
  apply andb_true_iff in H3 as [Hlo Hhi].
  apply N.leb_le in Hlo, Hhi. injection Hc as <-.
  assert (Hcases : (c = 65 \/ c = 66 \/ c = 67 \/ c = 68 \/ c = 69 \/ c = 70)%N) by lia.
  unfold hex_table.
  repeat (destruct Hcases as [-> | Hcases]; [simpl; tauto|]).
  subst c. simpl. tauto.
Qed.

Lemma channels_checked :
  forallb (fun hi => forallb (channel_ok hi) hex_table) hex_table = true.
Proof. vm_compute. reflexivity. Qed.

Lemma darker_channel_digits (c1 c2 : N) (d1 d2 : Z) :
  hex_value c1 = Some d1 -> hex_value c2 = Some d2 ->
  padStart2 (toString16 (darker_channel [c1; c2])) = hex2 (Z.max 0 (16 * d1 + d2 - 30)).
Proof.
  intros H1 H2. apply hex_value_table in H1, H2.
  pose proof channels_checked as Hall.
  rewrite forallb_forall in Hall. specialize (Hall _ H1).
  rewrite forallb_forall in Hall. specialize (Hall _ H2).
  unfold channel_ok in Hall. by apply bool_decide_eq_true in Hall.
Qed.

(** X8.  On a color written [#] and six hexadecimal digits, in either
    case, [darkenColor] lowers each of the three channels by 30, stopping
    at 0, and writes the result as [#] and six lower-case digits. *)
Theorem darkenColor_lowers_each_channel (c1 c2 c3 c4 c5 c6 : N) (d1 d2 d3 d4 d5 d6 : Z) :
  hex_value c1 = Some d1 -> hex_value c2 = Some d2 -> hex_value c3 = Some d3 ->
  hex_value c4 = Some d4 -> hex_value c5 = Some d5 -> hex_value c6 = Some d6 ->
  darkenColor (35%N :: [c1; c2; c3; c4; c5; c6]) =
    35%N :: hex2 (Z.max 0 (16 * d1 + d2 - 30))
         ++ hex2 (Z.max 0 (16 * d3 + d4 - 30))
         ++ hex2 (Z.max 0 (16 * d5 + d6 - 30)).
Proof.
  intros H1 H2 H3 H4 H5 H6. unfold darkenColor.
  change (remove_hash (35%N :: [c1; c2; c3; c4; c5; c6])) with [c1; c2; c3; c4; c5; c6].
  change (substr2 0 [c1; c2; c3; c4; c5; c6]) with [c1; c2].
  change (substr2 2 [c1; c2; c3; c4; c5; c6]) with [c3; c4].
  change (substr2 4 [c1; c2; c3; c4; c5; c6]) with [c5; c6].
  rewrite (darker_channel_digits _ _ _ _ H1 H2), (darker_channel_digits _ _ _ _ H3 H4),
    (darker_channel_digits _ _ _ _ H5 H6).
  reflexivity.
Qed.

(** X9.  [darkenColor] reads six digits: on a color with at most four
    characters besides the [#], such as the short form [#abc], the blue
    channel is not a number and the result ends in [NaN]. *)
Theorem darkenColor_short_color_gives_NaN (color : jsstring) :
  List.length (remove_hash color) <= 4 ->
  exists red_green, darkenColor color = (str "#" ++ red_green) ++ str "NaN".
Proof.
  intros Hlen. unfold darkenColor.
  assert (Hb : substr2 4 (remove_hash color) = []).
  { unfold substr2. by rewrite drop_ge. }
  rewrite Hb.
  eexists (padStart2 (toString16 (darker_channel (substr2 0 (remove_hash color)))) ++
           padStart2 (toString16 (darker_channel (substr2 2 (remove_hash color))))).
  change (padStart2 (toString16 (darker_channel []))) with (str "NaN").
  by rewrite <- !app_assoc.
Qed.

(** *** Nodes *)

Section Props.
Context `{Engine}.

Ltac in_list := simpl; repeat (first [left; reflexivity | right]).

Lemma primary_label_throws (node : value) (e : thrown) :
  primary_label node = Throw e -> e = TypeError.
Proof.
  unfold primary_label, get, array_find, mbind, completion_bind.
  intros He. repeat case_match; simplify_eq; done.
Qed.

(** What a drawn node was made of. *)
Lemma visNode_inv (node : value) (idx : nat) (vn : vis_node) :
  visNode node idx = Normal vn ->
  exists label key c sh tooltip,
    primary_label node = Normal label /\
    ToString label = Normal key /\
    nullish node = false /\
    nullish (get_opt node (str "properties")) = false /\
    formatNodeTooltip node = Normal tooltip /\
    map_or_default colorMap key = Some c /\
    map_or_default shapeMap key = Some sh /\
    vn = {| id := get_opt node (str "id");
            label := or_else (get_opt (get_opt node (str "properties")) (str "name"))
                       (VStr (str "Unknown"));
            title := tooltip;
            color := {| background := c; border := darkenColor c;
                        highlight_background := c; highlight_border := darkenColor c |};
            shape := sh;
            font_color := str "#ffffff"; font_size := 14; font_face := str "Arial";
            borderWidth := 2; borderWidthSelected := 3 |}.
Proof.
  unfold visNode, mbind, completion_bind. intros Hv.
  destruct (primary_label node) as [label|] eqn:Hp; [|done].
  destruct (ToString label) as [key|] eqn:Hk; [|done].
  destruct (nullish node) eqn:Hn.
  { destruct node; try done. }
  rewrite !(get_get_opt node _ Hn) in Hv.
  destruct (nullish (get_opt node (str "properties"))) eqn:Hprops.
  { destruct (get_opt node (str "properties")); done. }
  rewrite (get_get_opt _ _ Hprops) in Hv.
  destruct (formatNodeTooltip node) as [tooltip|] eqn:Ht; [|done].
  destruct (map_or_default colorMap key) as [c|] eqn:Hc; [|done].
  destruct (map_or_default shapeMap key) as [sh|] eqn:Hsh; [|done].
  injection Hv as <-. by eexists _, _, _, _, _.
Qed.

Lemma formatNodeTooltip_throws (node : value) (e : thrown) :
  formatNodeTooltip node = Throw e -> e = TypeError.
Proof.
  unfold formatNodeTooltip, tooltip_lines, mbind, completion_bind. intros He.
  destruct (primary_label node) eqn:Hp.
  - destruct (get node (str "properties")) as [props|] eqn:Hprops.
    + destruct (ToString a) eqn:Hl.
      * destruct (entries props) as [es|] eqn:Hes.
        -- destruct (property_lines es) eqn:Hlines; [done|].
           injection He as <-. by eapply property_lines_throws.
        -- unfold entries in Hes. repeat case_match; simplify_eq; done.
      * injection He as <-. by eapply ToString_throws.
    + unfold get in Hprops. repeat case_match; simplify_eq; done.
  - injection He as <-. by eapply primary_label_throws.
Qed.

Lemma visNode_throws (node : value) (idx : nat) (e : thrown) :
  visNode node idx = Throw e -> e = TypeError.
Proof.
  unfold visNode, mbind, completion_bind. intros He.
  destruct (primary_label node) eqn:Hp.
  - destruct (ToString a) eqn:Hk.
    + destruct (get node (str "properties")) as [props|e1] eqn:Hprops.
      * destruct (get props (str "name")) as [nm|e2] eqn:Hname.
        -- destruct (get node (str "id")) as [i|e3] eqn:Hid.
           ++ destruct (formatNodeTooltip node) eqn:Ht.
              ** repeat case_match; simplify_eq; done.
              ** injection He as <-. by eapply formatNodeTooltip_throws.
           ++ unfold get in Hid. repeat case_match; simplify_eq; done.
        -- unfold get in Hname. repeat case_match; simplify_eq; done.
      * unfold get in Hprops. repeat case_match; simplify_eq; done.
    + injection He as <-. by eapply ToString_throws.
  - injection He as <-. by eapply primary_label_throws.
Qed.

Lemma visEdge_throws (rel : value) (idx : nat) (e : thrown) :
  visEdge rel idx = Throw e -> e = TypeError.
Proof.
  unfold visEdge, get, mbind, completion_bind. intros He.
  repeat case_match; simplify_eq; done.
Qed.

Lemma map_from_throws {A B} (f : A -> nat -> completion B) (l : list A) :
  (forall x i e, f x i = Throw e -> e = TypeError) ->
  forall i e, map_from f i l = Throw e -> e = TypeError.
Proof.
  intros Hf. induction l as [|a l IH]; intros i e; simpl; [done|].
  unfold mbind, completion_bind.
  destruct (f a i) eqn:Ha.
  - destruct (map_from f (S i) l) eqn:Hl; [done|].
    intros [= <-]. by eapply IH.
  - intros [= <-]. by eapply Hf.
Qed.

(** One element that cannot be mapped stops the whole [map]. *)
Lemma map_from_bad {A B} (f : A -> nat -> completion B) (before after : list A) (bad : A) :
  (forall x i e, f x i = Throw e -> e = TypeError) ->
  (forall i, f bad i = Throw TypeError) ->
  forall i, map_from f i (before ++ bad :: after) = Throw TypeError.
Proof.
  intros Hf Hbad. induction before as [|a before IH]; intros i; simpl.
  - unfold mbind, completion_bind. by rewrite Hbad.
  - unfold mbind, completion_bind.
    destruct (f a i) eqn:Ha.
    + by rewrite IH.
    + f_equal. by eapply Hf.
Qed.

Lemma effect_undrawable (fields : list (jsstring * value)) (before after : list value)
    (bad : value) (r : refs) :
  lookup_prop (str "nodes") fields = VArr (before ++ bad :: after) ->
  (forall idx, visNode bad idx = Throw TypeError) ->
  container r = true ->
  effect (VObj fields) r = Throw TypeError.
Proof.
  intros Hnodes Hbad Hc. unfold effect. simpl. rewrite Hc, Hnodes. simpl.
  assert (Hlen : bool_decide (List.length (before ++ bad :: after) = 0) = false).
  { apply bool_decide_eq_false. rewrite length_app. simpl. lia. }
  rewrite Hlen. unfold visNodes, array_map.
  by rewrite (map_from_bad visNode before after bad visNode_throws Hbad).
Qed.

Lemma primary_label_inv (node label : value) :
  primary_label node = Normal label ->
  exists labels, get_opt node (str "labels") = VArr labels.
Proof.
  unfold primary_label, get, array_find, mbind, completion_bind. intros Hp.
  destruct node; try done; simpl in *;
    try (by repeat case_match; simplify_eq).
  destruct (lookup_prop (str "labels") kvs); try done. by eexists.
Qed.

Lemma formatNodeTooltip_inv (node : value) (tooltip : jsstring) :
  formatNodeTooltip node = Normal tooltip ->
  (exists labels, get_opt node (str "labels") = VArr labels) /\
  nullish (get_opt node (str "properties")) = false.
Proof.
  unfold formatNodeTooltip, tooltip_lines, mbind, completion_bind. intros Ht.
  destruct (primary_label node) as [label|] eqn:Hp; [|done].
  split; [by eapply primary_label_inv|].
  destruct (nullish node) eqn:Hn.
  { destruct node; done. }
  rewrite (get_get_opt _ _ Hn) in Ht.
  destruct (ToString label); [|done].
  destruct (get_opt node (str "properties")); done.
Qed.

Lemma map_pair (k c sh : jsstring) :
  map_or_default colorMap k = Some c ->
  map_or_default shapeMap k = Some sh ->
  exists key, In (key, c) colorMap /\ In (key, sh) shapeMap.
Proof.
  unfold map_or_default, colorMap, shapeMap. simpl. intros Hc Hsh.
  repeat case_match; simplify_eq;
    first [ by exists (str "Asset"); split; in_list
          | by exists (str "Service"); split; in_list
          | by exists (str "User"); split; in_list
          | by exists (str "Location"); split; in_list
          | by exists (str "Node"); split; in_list ].
Qed.

Lemma palette_colors (key c : jsstring) :
  In (key, c) colorMap -> is_color c = true /\ is_color (darkenColor c) = true.
Proof.
  unfold colorMap. simpl. intros Hin.
  repeat (destruct Hin as [Hin|Hin]; [injection Hin as <- <-; by vm_compute|]).
  done.
Qed.

(** X10.  Every node that is drawn gets one of the five pairs of color and
    shape of the two tables, under one and the same key; its border and
    highlight border are the darkened background, and both are
    well-formed colors ([#] and six digits, never [NaN]). *)
Theorem nodes_drawn_from_palette (node : value) (idx : nat) (vn : vis_node) :
  visNode node idx = Normal vn ->
  (exists key, In (key, background (color vn)) colorMap /\ In (key, shape vn) shapeMap) /\
  border (color vn) = darkenColor (background (color vn)) /\
  highlight_background (color vn) = background (color vn) /\
  highlight_border (color vn) = border (color vn) /\
  is_color (background (color vn)) = true /\
  is_color (border (color vn)) = true.
Proof.
  intros Hv.
  destruct (visNode_inv _ _ _ Hv)
    as (label & k0 & c & sh & tooltip & _ & _ & _ & _ & _ & Hc & Hsh & ->).
  simpl. destruct (map_pair _ _ _ Hc Hsh) as [key [Hkc Hks]].
  destruct (palette_colors _ _ Hkc) as [Hbg Hborder].
  split; [by exists key|]. by repeat split.
Qed.

Lemma proto_key_facts (s : jsstring) :
  s ∈ object_prototype_keys ->
  s <> [] /\ VStr s <> VStr (str "Node") /\
  map_or_default colorMap s = None.
Proof.
  unfold object_prototype_keys. intros Hs.
  repeat (apply elem_of_cons in Hs as [-> | Hs]; [by repeat split|]).
  by apply elem_of_nil in Hs.
Qed.

(** X11.  A node whose first label other than ['Node'] is the name of a
    member of [Object.prototype], such as ['constructor'] or ['toString'],
    cannot be drawn: the color lookup finds the inherited member instead
    of a color, [visNode] throws a TypeError, and with one such node in
    the payload the whole effect throws and builds no network. *)
Theorem prototype_label_cannot_be_drawn (fields : list (jsstring * value))
    (pre post : list value) (s : jsstring) :
  lookup_prop (str "labels") fields = VArr (pre ++ VStr s :: post) ->
  Forall (fun g => g = VStr (str "Node")) pre ->
  s ∈ object_prototype_keys ->
  (forall idx, visNode (VObj fields) idx = Throw TypeError) /\
  (forall graph_fields before after r,
     lookup_prop (str "nodes") graph_fields = VArr (before ++ VObj fields :: after) ->
     container r = true ->
     effect (VObj graph_fields) r = Throw TypeError).
Proof.
  intros Hlabels Hpre Hs.
  destruct (proto_key_facts s Hs) as (Hne & Hnode & Hnone).
  assert (Hp : primary_label (VObj fields) = Normal (VStr s)).
  { unfold primary_label. simpl. rewrite Hlabels. simpl.
    rewrite (find_specific pre post (VStr s) Hpre Hnode). simpl.
    unfold or_else. simpl. apply eqs_false in Hne. by rewrite Hne. }
  assert (Hbad : forall idx, visNode (VObj fields) idx = Throw TypeError).
  { intros idx. destruct (visNode (VObj fields) idx) as [vn|e] eqn:Hv.
    - destruct (visNode_inv _ _ _ Hv)
        as (label & key & c & sh & t & Hp' & Hk & _ & _ & _ & Hc & _).
      rewrite Hp in Hp'. injection Hp' as <-. injection Hk as <-. congruence.
    - f_equal. by eapply visNode_throws. }
  split; [exact Hbad|].
  intros graph_fields before after r Hnodes Hc.
  by eapply effect_undrawable.
Qed.

Lemma own_entry_none (s : jsstring) (m : list (jsstring * jsstring)) :
  ~ In s (map fst m) -> own_entry s m = None.
Proof.
  induction m as [|[k v] m IH]; simpl; [done|]. intros Hs.
  destruct (eqs k s) eqn:Hk.
  - apply eqs_true in Hk. tauto.
  - apply IH. tauto.
Qed.

(** X12.  A node whose first label other than ['Node'] is a tag the
    tables do not list, such as ['Database'], and whose shown properties
    convert to strings, is drawn in the default color [#757575] and shape
    [dot], while its tooltip is headed by the tag itself. *)
Theorem unlisted_label_drawn_as_default (fields props : list (jsstring * value))
    (pre post : list value) (s : jsstring) (idx : nat) :
  lookup_prop (str "labels") fields = VArr (pre ++ VStr s :: post) ->
  Forall (fun g => g = VStr (str "Node")) pre ->
  s <> [] ->
  ~ In s (map fst colorMap) ->
  s ∉ object_prototype_keys ->
  lookup_prop (str "properties") fields = VObj props ->
  Forall (fun e => printable e.2 = true) (shown_properties props) ->
  exists vn rest,
    visNode (VObj fields) idx = Normal vn /\
    background (color vn) = str "#757575" /\
    shape vn = str "dot" /\
    formatNodeTooltip (VObj fields) =
      Normal (join_br ((str "<b>" ++ s ++ str "</b>") :: rest)) /\
    title vn = join_br ((str "<b>" ++ s ++ str "</b>") :: rest).
Proof.
  intros Hlabels Hpre Hne Hunlisted Hproto Hprops Hshown.
  assert (Hnode : VStr s <> VStr (str "Node")).
  { intros [= ->]. apply Hunlisted. in_list. }
  assert (Hp : primary_label (VObj fields) = Normal (VStr s)).
  { unfold primary_label. simpl. rewrite Hlabels. simpl.
    rewrite (find_specific pre post (VStr s) Hpre Hnode). simpl.
    unfold or_else. simpl. apply eqs_false in Hne. by rewrite Hne. }
  destruct (display_of_label fields props (VStr s) idx (str "#757575") (str "dot"))
    as (vn & rest & Hv & Hb & Hs & _ & Hf & Ht); try done.
  - unfold map_or_default. change (text (VStr s)) with s.
    rewrite (own_entry_none s colorMap Hunlisted).
    by rewrite bool_decide_eq_false_2.
  - unfold map_or_default. change (text (VStr s)) with s.
    rewrite (own_entry_none s shapeMap Hunlisted).
    by rewrite bool_decide_eq_false_2.
  - by exists vn, rest.
Qed.

Lemma node_not_prototype_key : str "Node" ∉ object_prototype_keys.
Proof.
  intros Hin. apply (bool_decide_eq_true_2 _) in Hin. vm_compute in Hin. discriminate.
Qed.

Lemma plain_label (labels : list value) :
  forallb plain_tag labels = true ->
  exists s,
    or_else (default VUndef (List.find (fun l => strict_neq_str l (str "Node")) labels))
      (VStr (str "Node")) = VStr s /\
    s ∉ object_prototype_keys.
Proof.
  intros Hall.
  destruct (List.find (fun l => strict_neq_str l (str "Node")) labels) as [l|] eqn:Hfind.
  - apply find_some in Hfind as [Hin _].
    rewrite forallb_forall in Hall. specialize (Hall l Hin).
    destruct l as [| | | |s| |]; simpl in Hall; try discriminate.
    apply andb_true_iff in Hall as [Hne Hproto].
    exists s. split.
    + simpl. unfold or_else. simpl. by rewrite Hne.
    + apply negb_true_iff, bool_decide_eq_false in Hproto. exact Hproto.
  - exists (str "Node"). split; [reflexivity | apply node_not_prototype_key].
Qed.

Lemma map_or_default_some (m : list (jsstring * jsstring)) (s d : jsstring) :
  own_entry (str "Node") m = Some d ->
  s ∉ object_prototype_keys ->
  exists c, map_or_default m s = Some c.
Proof.
  intros Hd Hs. unfold map_or_default.
  destruct (own_entry s m) as [v|].
  - destruct (eqs v []); by eexists.
  - rewrite bool_decide_eq_false_2 by done. by eexists.
Qed.

Lemma property_lines_total (es : list (jsstring * value)) :
  forallb line_printable es = true -> exists lines, property_lines es = Normal lines.
Proof.
  induction es as [|e es IH]; [by eexists|]. cbn [forallb property_lines].
  intros Hall. apply andb_true_iff in Hall as [He Hrest].
  destruct (IH Hrest) as [lines Hlines].
  unfold line_printable in He.
  destruct (shown_in_tooltip e); [|by eexists].
  simpl in He. unfold tooltip_line, mbind, completion_bind.
  rewrite (ToString_printable _ He), Hlines. by eexists.
Qed.

Lemma visNode_drawable (node : value) (idx : nat) :
  drawable node = true ->
  exists vn,
    visNode node idx = Normal vn /\
    id vn = get_opt node (str "id") /\
    label vn = or_else (get_opt (get_opt node (str "properties")) (str "name"))
                 (VStr (str "Unknown")) /\
    formatNodeTooltip node = Normal (title vn).
Proof.
  unfold drawable. intros Hd. apply andb_true_iff in Hd as [Hlabels Hprops].
  destruct node as [| | | | | |kvs]; try discriminate. cbn [get_opt] in *.
  destruct (lookup_prop (str "labels") kvs) as [| | | | |labels|] eqn:Hl; try discriminate.
  destruct (plain_label labels Hlabels) as [s [Hs Hproto]].
  assert (Hp : primary_label (VObj kvs) = Normal (VStr s)).
  { unfold primary_label. cbn [get]. rewrite Hl. unfold mbind, completion_bind.
    cbn [array_find]. by rewrite Hs. }
  destruct (map_or_default_some colorMap s _ eq_refl Hproto) as [c Hc].
  destruct (map_or_default_some shapeMap s _ eq_refl Hproto) as [sh Hsh].
  destruct (entries (lookup_prop (str "properties") kvs)) as [es|] eqn:He; [|done].
  assert (Hn : nullish (lookup_prop (str "properties") kvs) = false).
  { by destruct (lookup_prop (str "properties") kvs). }
  destruct (property_lines_total es Hprops) as [lines Hlines].
  eexists. unfold visNode, formatNodeTooltip, tooltip_lines.
  rewrite Hp. cbn [get ToString]. unfold mbind, completion_bind.
  rewrite (get_get_opt _ _ Hn), He, Hlines.
  change (ToString (VStr s)) with (Normal s). cbv iota beta.
  rewrite Hc, Hsh. by repeat split.
Qed.

(** X13.  A list of drawable nodes (objects with type tags for labels and
    with properties whose shown values convert to strings) becomes the
    nodes of the network one for one and in order: the node at position
    [i] keeps the [id] of the payload node at position [i], is labelled
    with its [name] property, or ['Unknown'] when that is missing or
    empty, and carries its tooltip as title. *)
Theorem drawable_nodes_one_for_one (ns : list value) :
  Forall (fun n => drawable n = true) ns ->
  exists vns,
    visNodes (VArr ns) = Normal vns /\
    List.length vns = List.length ns /\
    forall i n, ns !! i = Some n ->
      exists vn, vns !! i = Some vn /\
        id vn = get_opt n (str "id") /\
        label vn = or_else (get_opt (get_opt n (str "properties")) (str "name"))
                     (VStr (str "Unknown")) /\
        formatNodeTooltip n = Normal (title vn).
Proof.
  intros Hall.
  assert (Hn : forall j x, ns !! j = Some x -> drawable x = true).
  { intros j x Hj. rewrite Forall_forall in Hall. apply Hall.
    by eapply list_elem_of_lookup_2. }
  destruct (map_from_total visNode ns 0) as [vns Hvns].
  { intros j x Hj. destruct (visNode_drawable x (0 + j) (Hn j x Hj)) as [vn [Hvn _]].
    by exists vn. }
  exists vns. destruct (map_from_lookup _ _ _ _ Hvns) as [Hlen Hlk].
  split; [exact Hvns|]. split; [exact Hlen|].
  intros i n Hi. destruct (Hlk i n Hi) as [vn [Hvn Hf]].
  exists vn. split; [exact Hvn|].
  destruct (visNode_drawable n (0 + i) (Hn i n Hi)) as [vn' [Hvn' Hprops]].
  rewrite Hvn' in Hf. injection Hf as <-. exact Hprops.
Qed.

(** The effect past its guards. *)
Lemma effect_steps (fields : list (jsstring * value)) (ns : list value) (r : refs) :
  lookup_prop (str "nodes") fields = VArr ns ->
  ns <> [] ->
  container r = true ->
  effect (VObj fields) r =
    vns ← visNodes (VArr ns);
    ves ← visEdges (lookup_prop (str "relationships") fields);
    Normal (true, {| container := true;
                     network := Some {| nodes := vns; edges := ves |} |}).
Proof.
  intros Hnodes Hne Hc. unfold effect. simpl. rewrite Hc, Hnodes. simpl.
  destruct ns; [done|]. reflexivity.
Qed.

(** X14.  A graph payload with nodes but without a list of relationships
    (the field is missing or is not an array) makes the effect throw a
    TypeError: no network is built, whatever the nodes are. *)
Theorem missing_relationships_fail (fields : list (jsstring * value))
    (n : value) (ns : list value) (r : refs) :
  lookup_prop (str "nodes") fields = VArr (n :: ns) ->
  (forall rels, lookup_prop (str "relationships") fields <> VArr rels) ->
  container r = true ->
  effect (VObj fields) r = Throw TypeError.
Proof.
  intros Hnodes Hrels Hc.
  assert (Hedges : visEdges (lookup_prop (str "relationships") fields) = Throw TypeError).
  { unfold visEdges, array_map.
    destruct (lookup_prop (str "relationships") fields) as [| | | | |rels|] eqn:Hr;
      try reflexivity.
    by destruct (Hrels rels). }
  rewrite (effect_steps fields (n :: ns) r Hnodes); [|done|done].
  rewrite Hedges. unfold mbind, completion_bind.
  destruct (visNodes (VArr (n :: ns))) as [vns|e] eqn:Hv; [reflexivity|].
  f_equal. unfold visNodes, array_map in Hv.
  by eapply (map_from_throws visNode (n :: ns) visNode_throws).
Qed.

(** X15.  When the effect completes, either it did nothing (no cleanup,
    the refs as they were) or it built a network: then the container is
    mounted, the payload had a non-empty list of nodes and a list of
    relationships, the network holds as many nodes and edges as these
    lists, a cleanup is registered, and running the cleanup leaves no
    network behind. *)
Theorem effect_builds_or_leaves (graphData' : value) (r r' : refs) (registered : bool) :
  effect graphData' r = Normal (registered, r') ->
  (registered = false /\ r' = r) \/
  (registered = true /\ container r = true /\
   exists ns rels data,
     get_opt graphData' (str "nodes") = VArr ns /\ ns <> [] /\
     get_opt graphData' (str "relationships") = VArr rels /\
     r' = {| container := true; network := Some data |} /\
     List.length (nodes data) = List.length ns /\
     List.length (edges data) = List.length rels /\
     cleanup r' = {| container := true; network := None |}).
Proof.
  unfold effect. intros He.
  destruct (negb (ToBoolean graphData') || negb (container r)) eqn:Hg.
  { injection He as <- <-. by left. }
  apply orb_false_iff in Hg as [Hg Hc]. apply negb_false_iff in Hg, Hc.
  assert (Hn : nullish graphData' = false) by by destruct graphData'.
  rewrite !(get_get_opt _ _ Hn) in He.
  remember (get_opt graphData' (str "nodes")) as nodes_v eqn:Hnv.
  remember (get_opt graphData' (str "relationships")) as rels_v eqn:Hrv.
  unfold mbind, completion_bind in He.
  destruct (negb (ToBoolean nodes_v)) eqn:Hnodes.
  { injection He as <- <-. by left. }
  destruct (get_length nodes_v) as [len|] eqn:Hlen; [|done].
  destruct (length_is_zero len) eqn:Hzero.
  { injection He as <- <-. by left. }
  destruct (visNodes nodes_v) as [vns|] eqn:Hvns; [|done].
  destruct (visEdges rels_v) as [ves|] eqn:Hves; [|done].
  injection He as <- <-. right. split; [done|]. split; [done|].
  unfold visNodes, array_map in Hvns. unfold visEdges, array_map in Hves.
  destruct nodes_v as [| | | | |ns|]; try done.
  destruct rels_v as [| | | | |rels|]; try done.
  destruct (map_from_lookup _ _ _ _ Hvns) as [Hlv _].
  destruct (map_from_lookup _ _ _ _ Hves) as [Hle _].
  exists ns, rels, {| nodes := vns; edges := ves |}.
  rewrite Hc. repeat split; try done.
  intros ->. simpl in Hlen. injection Hlen as <-. discriminate.
Qed.

(** X16.  A node without readable labels or properties cannot be drawn:
    when its [labels] is not an array, or its [properties] is missing or
    [null], both [formatNodeTooltip] and [visNode] throw a TypeError, and
    with one such node in the payload the whole effect throws. *)
Theorem malformed_node_cannot_be_drawn (node : value) :
  (forall labels, get_opt node (str "labels") <> VArr labels) \/
  nullish (get_opt node (str "properties")) = true ->
  formatNodeTooltip node = Throw TypeError /\
  (forall idx, visNode node idx = Throw TypeError) /\
  (forall graph_fields before after r,
     lookup_prop (str "nodes") graph_fields = VArr (before ++ node :: after) ->
     container r = true ->
     effect (VObj graph_fields) r = Throw TypeError).
Proof.
  intros Hbad.
  assert (Hv : forall idx, visNode node idx = Throw TypeError).
  { intros idx. destruct (visNode node idx) as [vn|e] eqn:Hv.
    - destruct (visNode_inv _ _ _ Hv)
        as (label & key & c & sh & t & Hp & _ & _ & Hprops & _).
      destruct (primary_label_inv _ _ Hp) as [labels Hlabels].
      destruct Hbad as [Hl|Hpr]; [by destruct (Hl labels) | congruence].
    - f_equal. by eapply visNode_throws. }
  split; [|split; [exact Hv|]].
  - destruct (formatNodeTooltip node) as [t|e] eqn:Ht.
    + destruct (formatNodeTooltip_inv _ _ Ht) as [[labels Hlabels] Hprops].
      destruct Hbad as [Hl|Hpr]; [by destruct (Hl labels) | congruence].
    + f_equal. by eapply formatNodeTooltip_throws.
  - intros graph_fields before after r Hnodes Hc. by eapply effect_undrawable.
Qed.

End Props.

Lemma darkenColor_lowers_each_channel_witness :
  darkenColor (str "#4CAF50") = str "#2e9132".
Proof.
  apply (darkenColor_lowers_each_channel 52 67 65 70 53 48 4 12 10 15 5 0);
    reflexivity.
Defined.

Lemma darkenColor_short_color_gives_NaN_witness :
  exists red_green, darkenColor (str "#abc") = (str "#" ++ red_green) ++ str "NaN".
Proof.
  apply (darkenColor_short_color_gives_NaN (str "#abc")). simpl. lia.
Defined.

Lemma nodes_drawn_from_palette_witness :
  exists vn,
    @visNode example_engine db_server 0 = Normal vn /\
    is_color (border (color vn)) = true.
Proof.
  eexists. split; [reflexivity|].
  apply (@nodes_drawn_from_palette example_engine db_server 0 _ eq_refl).
Defined.

Lemma prototype_label_cannot_be_drawn_witness :
  @visNode example_engine
    (VObj [(str "labels", VArr [VStr (str "Node"); VStr (str "constructor")]);
           (str "properties", VObj [])]) 0 = Throw TypeError.
Proof.
  destruct (@prototype_label_cannot_be_drawn example_engine
              [(str "labels", VArr [VStr (str "Node"); VStr (str "constructor")]);
               (str "properties", VObj [])]
              [VStr (str "Node")] [] (str "constructor") eq_refl) as [Hnode _].
  - repeat constructor.
  - unfold object_prototype_keys. apply elem_of_cons. by left.
  - apply Hnode.
Defined.

Lemma unlisted_label_drawn_as_default_witness :
  exists vn rest,
    @visNode example_engine
      (VObj [(str "labels", VArr [VStr (str "Database")]);
             (str "properties", VObj [])]) 0 = Normal vn /\
    background (color vn) = str "#757575" /\
    shape vn = str "dot" /\
    @formatNodeTooltip example_engine
      (VObj [(str "labels", VArr [VStr (str "Database")]);
             (str "properties", VObj [])])
      = Normal (join_br (str "<b>Database</b>" :: rest)).
Proof.
  destruct (@unlisted_label_drawn_as_default example_engine
              [(str "labels", VArr [VStr (str "Database")]); (str "properties", VObj [])]
              [] [] [] (str "Database") 0 eq_refl)
    as (vn & rest & Hv & Hb & Hs & Hf & _).
  - constructor.
  - discriminate.
  - simpl. intros Hin. repeat (destruct Hin as [Hin|Hin]; [discriminate Hin|]). done.
  - intros Hin. apply (bool_decide_eq_true_2 _) in Hin. vm_compute in Hin. discriminate.
  - reflexivity.
  - constructor.
  - by exists vn, rest.
Defined.

Lemma drawable_nodes_one_for_one_witness :
  exists vns,
    @visNodes example_engine (VArr [db_server; data_center]) = Normal vns /\
    List.length vns = 2.
Proof.
  destruct (@drawable_nodes_one_for_one example_engine [db_server; data_center])
    as [vns [Hvns [Hlen _]]].
  - repeat constructor.
  - exists vns. split; [exact Hvns | exact Hlen].
Defined.

Lemma missing_relationships_fail_witness :
  @effect example_engine (VObj [(str "nodes", VArr [db_server])]) mounted
    = Throw TypeError.
Proof.
  apply (@missing_relationships_fail example_engine
           [(str "nodes", VArr [db_server])] db_server [] mounted eq_refl).
  - intros rels. discriminate.
  - reflexivity.
Defined.

Lemma effect_builds_or_leaves_witness :
  exists r', @effect example_engine
               (VObj [(str "nodes", VArr [db_server; data_center]);
                      (str "relationships", VArr [located_in])]) mounted
             = Normal (true, r') /\
             cleanup r' = mounted.
Proof.
  eexists. split; [reflexivity|].
  destruct (@effect_builds_or_leaves example_engine
              (VObj [(str "nodes", VArr [db_server; data_center]);
                     (str "relationships", VArr [located_in])])
              mounted _ true eq_refl) as [[Hno _]|[_ [_ Hbuilt]]].
  - discriminate Hno.
  - reflexivity.
Defined.

Lemma malformed_node_cannot_be_drawn_witness :
  @formatNodeTooltip example_engine
    (VObj [(str "id", VStr (str "n1")); (str "labels", VArr [VStr (str "Asset")])])
    = Throw TypeError.
Proof.
  apply (@malformed_node_cannot_be_drawn example_engine
           (VObj [(str "id", VStr (str "n1")); (str "labels", VArr [VStr (str "Asset")])])).
  right. reflexivity.
Defined.

End Drawing.

(** ** The graph panel *)

Module Panels.
Import JSFacts App Expected Examples Measures Submission Conversation.
Import GraphVisualization GraphVisualizationView.

Section Props.
Context `{Engine}.
Variable API_URL : jsstring.

(** X17.  With no request in flight, the panel of a reachable page shows
    exactly one of two things: before any graph was stored, the empty
    state with the container hidden; afterwards, the container and the
    legend.  The overlay is off in both, and the slot of the legend holds
    the legend or [null], never a stray falsy value that React would
    draw. *)
Theorem idle_panel_shows_graph_or_empty_state (s : system) :
  reachable API_URL s ->
  in_flight s = [] ->
  graph_panel (ui s) =
    SElem (str "div") (str "graph-visualization") []
      (if ToBoolean (graphData (ui s))
       then [SExpr (VBool false); SExpr (VBool false);
             network_container (str "block"); graph_legend]
       else [SExpr (VBool false); empty_state;
             network_container (str "none"); SExpr VNull]).
Proof.
  intros Hs Hidle. unfold graph_panel, render.
  rewrite (loading_invariant API_URL s Hs Hidle).
  destruct (graph_invariant API_URL s Hs) as [-> | ->]; reflexivity.
Qed.

(** X18.  The loading flag does not count requests: when a second
    question is submitted while the first is in flight, the first request
    to settle switches loading off although the other is still pending. *)
Theorem overlapping_requests_clear_loading_early (q1 q2 : jsstring) (o : outcome)
    (s : system) :
  trim q1 <> [] ->
  trim q2 <> [] ->
  let s' := settle 0 o (submit API_URL q2 (submit API_URL q1 s)) in
  (reachable API_URL s -> reachable API_URL s') /\
  isLoading (ui s') = false /\
  List.length (in_flight s') = S (List.length (in_flight s)) /\
  children_of (graph_panel (ui s')) !! 0 = Some (SExpr (VBool false)).
Proof.
  intros H1 H2 s'.
  assert (Hsub : forall q t, trim q <> [] ->
            in_flight (submit API_URL q t) =
              in_flight t ++ [{| ChatPanel.url := API_URL ++ str "/ask";
                                ChatPanel.body := VObj [(str "question", VStr q)] |}]).
  { intros q t Hq. unfold submit. by rewrite (handleSubmit_start_nonblank _ _ _ Hq). }
  assert (Hlen : List.length (in_flight (submit API_URL q2 (submit API_URL q1 s)))
                 = S (S (List.length (in_flight s)))).
  { rewrite (Hsub q2 _ H2), (Hsub q1 _ H1), !length_app. simpl. lia. }
  assert (Hload : isLoading (ui s') = false).
  { unfold s', settle. simpl. apply finally_resets_loading. }
  split; [|split; [exact Hload|split]].
  - intros Hs. unfold reachable in *.
    eapply rtc_r; [eapply rtc_r; [eapply rtc_r; [exact Hs|]|]|].
    + apply step_submit.
    + apply step_submit.
    + apply step_settle. rewrite Hlen. lia.
  - unfold s', settle. simpl.
    destruct (in_flight (submit API_URL q2 (submit API_URL q1 s))) as [|r0 rest] eqn:Hin;
      simpl in *; [discriminate | lia].
  - unfold graph_panel, render. rewrite Hload. reflexivity.
Qed.

(** X19.  An answer whose graph has no nodes still replaces the stored
    graph: the panel then shows the legend over a container in which the
    effect builds no network, and the empty state does not come back. *)
Theorem empty_graph_answer_blanks_panel (answerData : value)
    (graph_fields : list (jsstring * value)) (w : world) (r : refs) :
  get_opt answerData (str "graph_data") = VObj graph_fields ->
  ToBoolean (lookup_prop (str "nodes") graph_fields) = false \/
  lookup_prop (str "nodes") graph_fields = VArr [] ->
  let w' := (handleSubmit_resume (Resolved (VObj [(str "data", answerData)])) w).2 in
  graphData w' = VObj graph_fields /\
  graph_panel w' =
    SElem (str "div") (str "graph-visualization") []
      [SExpr (VBool false); SExpr (VBool false);
       network_container (str "block"); graph_legend] /\
  effect (graphData w') r = Normal (false, r).
Proof.
  intros Hgd Hnodes.
  assert (Hn : nullish answerData = false) by by destruct answerData.
  simpl. rewrite (resume_answer _ _ Hn).
  unfold graph_panel, answered. simpl. rewrite Hgd. simpl.
  split; [reflexivity|]. split; [reflexivity|].
  unfold effect. simpl.
  destruct (container r); [|reflexivity]. simpl.
  destruct Hnodes as [-> | ->]; reflexivity.
Qed.

End Props.

Lemma idle_panel_shows_graph_or_empty_state_witness :
  children_of (graph_panel (ui answered_once)) !! 3 = Some graph_legend.
Proof.
  rewrite (@idle_panel_shows_graph_or_empty_state (str "http://localhost:8000")
             answered_once).
  - reflexivity.
  - unfold reachable, answered_once.
    eapply rtc_l; [apply (step_submit _ initial (str "hi"))|].
    eapply rtc_l; [|apply rtc_refl].
    apply (step_settle _ _ 0 (Resolved (VObj [(str "data", payload "q" "active")]))).
    simpl. lia.
  - reflexivity.
Defined.

Lemma overlapping_requests_clear_loading_early_witness :
  isLoading (ui (settle 0 (Rejected server_error)
                   (submit (str "http://localhost:8000") (str "second")
                      (submit (str "http://localhost:8000") (str "first") initial))))
    = false /\
  List.length (in_flight (settle 0 (Rejected server_error)
                            (submit (str "http://localhost:8000") (str "second")
                               (submit (str "http://localhost:8000") (str "first")
                                  initial)))) = 1.
Proof.
  destruct (@overlapping_requests_clear_loading_early (str "http://localhost:8000")
              (str "first") (str "second") (Rejected server_error) initial)
    as [_ [Hload [Hlen _]]].
  - discriminate.
  - discriminate.
  - split; [exact Hload | exact Hlen].
Defined.

Lemma empty_graph_answer_blanks_panel_witness :
  graphData (handleSubmit_resume
               (Resolved (VObj [(str "data",
                  VObj [(str "answer", VStr (str "No relevant data found."));
                        (str "graph_data", VObj [(str "nodes", VArr []);
                                                 (str "relationships", VArr [])])])]))
               (ui initial)).2
    = VObj [(str "nodes", VArr []); (str "relationships", VArr [])].
Proof.
  apply (@empty_graph_answer_blanks_panel example_engine
           (VObj [(str "answer", VStr (str "No relevant data found."));
                  (str "graph_data", VObj [(str "nodes", VArr []);
                                           (str "relationships", VArr [])])])
           [(str "nodes", VArr []); (str "relationships", VArr [])]
           (ui initial) mounted eq_refl).
  right. reflexivity.
Defined.

End Panels.

(** ** The examples and the message list *)

Module Controls.
Import JSFacts App Expected Examples Measures Submission Conversation.
Import ChatPanelControls.

Section Props.
Context `{Engine}.
Variable API_URL : jsstring.

Lemma render_example_lookup (l : list value) :
  forall i buttons, map_from render_example i l = Normal buttons ->
    List.length buttons = List.length l /\
    forall j e, l !! j = Some e ->
      buttons !! j = Some (Elem (str "button") (str "example-button") (Some (i + j))
                             [Expr e]).
Proof.
  intros i buttons Hb. destruct (map_from_lookup _ _ _ _ Hb) as [Hlen Hlk].
  split; [exact Hlen|]. intros j e Hj.
  destruct (Hlk j e Hj) as [y [Hy Hf]]. unfold render_example in Hf.
  injection Hf as <-. exact Hy.
Qed.

(** X20.  While the conversation holds exactly one message, a non-empty
    list of examples is offered as buttons: at most four of them, the
    first four of the list in its order, each keyed by its position and
    showing its example. *)
Theorem examples_section_shows_first_four (examples : list value) (m : message) :
  examples <> [] ->
  exists buttons,
    render_examples (VArr examples) [m] =
      Normal (Elem (str "div") (str "examples-section") None
                [Elem (str "p") (str "examples-title") None
                   [Text (str "Try these examples:")];
                 Elem (str "div") (str "examples-grid") None buttons]) /\
    List.length buttons = Nat.min 4 (List.length examples) /\
    forall i example, i < 4 -> examples !! i = Some example ->
      buttons !! i = Some (Elem (str "button") (str "example-button") (Some i)
                             [Expr example]).
Proof.
  intros Hne.
  destruct (map_from_total render_example (take 4 examples) 0) as [buttons Hb].
  { intros j x _. by eexists. }
  exists buttons. destruct (render_example_lookup _ _ _ Hb) as [Hlen Hlk].
  split; [|split].
  - unfold render_examples. simpl.
    destruct examples as [|e0 rest]; [done|].
    unfold array_map. unfold mbind, completion_bind.
    unfold mbind, completion_bind in Hb. by rewrite Hb.
  - by rewrite Hlen, length_take.
  - intros i example Hi He. apply (Hlk i example).
    by rewrite lookup_take_lt.
Qed.

(** X21.  The examples are offered only at the start: once a question was
    sent from a conversation that already had a message (the welcome), the
    section is gone whenever [examples.length > 0] evaluates, as it does
    for every list; when the comparison throws, so does the rendering,
    with a TypeError.  The section is absent too when there are no
    examples. *)
Theorem examples_hidden_after_first_question (examples : value) (question : jsstring)
    (w : world) :
  trim question <> [] ->
  messages w <> [] ->
  let msgs := messages (handleSubmit_start API_URL question w).2 in
  (forall len positive,
     get_length examples = Normal len ->
     length_gt_zero len = Normal positive ->
     render_examples examples msgs = Normal (Expr (VBool false))) /\
  (forall l, examples = VArr l ->
     render_examples examples msgs = Normal (Expr (VBool false))) /\
  (get_length examples = Throw TypeError \/
   (exists len, get_length examples = Normal len /\
                length_gt_zero len = Throw TypeError) ->
   render_examples examples msgs = Throw TypeError) /\
  (forall anymsgs, render_examples (VArr []) anymsgs = Normal (Expr (VBool false))).
Proof.
  intros Hq Hm msgs.
  assert (Hmsgs : (List.length msgs =? 1)%nat = false).
  { subst msgs. rewrite (handleSubmit_start_nonblank _ _ _ Hq). simpl.
    rewrite length_app. simpl. destruct (messages w) as [|m0 ms]; [done|]. simpl.
    apply Nat.eqb_neq. lia. }
  assert (Hlen : forall len positive,
     get_length examples = Normal len ->
     length_gt_zero len = Normal positive ->
     render_examples examples msgs = Normal (Expr (VBool false))).
  { intros len positive Hlen Hpos. unfold render_examples, mbind, completion_bind.
    rewrite Hlen, Hpos, Hmsgs. by destruct positive. }
  split; [exact Hlen|]. split; [|split].
  - intros l ->. by eapply Hlen.
  - intros [Hlen'|[len [Hlen' Hpos]]]; unfold render_examples, mbind, completion_bind.
    + by rewrite Hlen'.
    + by rewrite Hlen', Hpos.
  - reflexivity.
Qed.

(** X22.  Loading the examples: a failed request, or a response without
    [data], leaves the examples as they were and goes to the console; a
    response with [data] stores its [examples] field as it is, so a body
    without that field stores [undefined], and rendering the examples
    then throws a TypeError. *)
Theorem examples_load_outcomes (examples : value) :
  (forall error,
     load_examples (Rejected error) examples = (examples, Some (Rejection error))) /\
  (forall response,
     nullish response = true \/ nullish (get_opt response (str "data")) = true ->
     load_examples (Resolved response) examples = (examples, Some TypeError)) /\
  (forall response,
     nullish response = false ->
     nullish (get_opt response (str "data")) = false ->
     let loaded := get_opt (get_opt response (str "data")) (str "examples") in
     load_examples (Resolved response) examples = (loaded, None) /\
     (nullish loaded = true ->
      forall msgs, render_examples loaded msgs = Throw TypeError)).
Proof.
  split; [done|]. split.
  - intros response Hr. unfold load_examples, mbind, completion_bind.
    destruct (nullish response) eqn:Hn.
    + by destruct (get_opt_nullish response (str "data") Hn) as [-> _].
    + destruct Hr as [?|Hd]; [done|].
      rewrite (get_get_opt _ _ Hn).
      by destruct (get_opt_nullish _ (str "examples") Hd) as [-> _].
  - intros response Hr Hd loaded. split.
    + unfold load_examples, mbind, completion_bind.
      by rewrite (get_get_opt _ _ Hr), (get_get_opt _ _ Hd).
    + intros Hl msgs. unfold render_examples. by destruct loaded.
Qed.

(** *** The message list *)

Lemma render_source_throws (source : value) (idx : nat) (e : thrown) :
  ChatPanel.render_source source idx = Throw e -> e = TypeError.
Proof.
  unfold ChatPanel.render_source, get, mbind, completion_bind. intros He.
  repeat case_match; simplify_eq; done.
Qed.

Lemma render_message_throws (m : message) (index : nat) (e : thrown) :
  ChatPanel.render_message m index = Throw e -> e = TypeError.
Proof.
  unfold ChatPanel.render_message, ChatPanel.render_sources, mbind, completion_bind.
  intros He.
  destruct (negb (ToBoolean (sources m))); [done|].
  destruct (get_length (sources m)) as [len|] eqn:Hlen.
  - destruct (length_gt_zero len) as [positive|e'] eqn:Hpos;
      [|injection He as <-; by eapply Printing.length_gt_zero_throws].
    destruct (negb positive); [done|].
    destruct (array_map ChatPanel.render_source (sources m)) as [items|e'] eqn:Hitems;
      [done|].
    injection He as <-. unfold array_map in Hitems.
    destruct (sources m); simplify_eq; try done.
    by eapply (Drawing.map_from_throws ChatPanel.render_source l render_source_throws).
  - injection He as <-. unfold get_length in Hlen. repeat case_match; simplify_eq; done.
Qed.

(** X23.  One [null] or [undefined] entry in the sources of one message
    makes the whole message list fail to render, with a TypeError. *)
Theorem null_source_breaks_message_list (before after : list message) (m : message)
    (srcs_before srcs_after : list value) (bad : value) :
  sources m = VArr (srcs_before ++ bad :: srcs_after) ->
  nullish bad = true ->
  ChatPanel.render_messages (before ++ m :: after) = Throw TypeError.
Proof.
  intros Hs Hbad. unfold ChatPanel.render_messages.
  apply (Drawing.map_from_bad ChatPanel.render_message before after m
           render_message_throws).
  intros i. unfold ChatPanel.render_message, ChatPanel.render_sources. rewrite Hs.
  simpl ToBoolean. simpl negb. cbv iota. simpl get_length.
  unfold mbind at 2. unfold completion_bind.
  assert (Hpos : length_gt_zero
            (LenNat (List.length (srcs_before ++ bad :: srcs_after))) = Normal true).
  { simpl. f_equal. apply bool_decide_eq_true. rewrite length_app. simpl. lia. }
  rewrite Hpos. unfold mbind at 2. unfold completion_bind.
  simpl negb. cbv iota. unfold array_map.
  rewrite (Drawing.map_from_bad ChatPanel.render_source srcs_before srcs_after bad
             render_source_throws).
  - reflexivity.
  - intros j. unfold ChatPanel.render_source. by destruct bad.
Qed.

Lemma render_message_plain (m : message) (i : nat) :
  ToBoolean (sources m) = false ->
  ChatPanel.render_message m i =
    Normal (Elem (str "div") (str "message " ++ type m) (Some i)
              [Elem (str "div") (str "message-content") None [Expr (content m)];
               Expr (sources m)]).
Proof.
  intros Hm. unfold ChatPanel.render_message, ChatPanel.render_sources.
  rewrite Hm. reflexivity.
Qed.

Lemma render_plain_from (msgs : list message) :
  Forall (fun m => ToBoolean (sources m) = false) msgs ->
  forall i, map_from ChatPanel.render_message i msgs =
    Normal (imap (fun j m =>
              Elem (str "div") (str "message " ++ type m) (Some (i + j))
                [Elem (str "div") (str "message-content") None [Expr (content m)];
                 Expr (sources m)]) msgs).
Proof.
  induction 1 as [|m msgs Hm _ IH]; intros i; [reflexivity|].
  cbn [map_from imap]. unfold mbind, completion_bind.
  rewrite (render_message_plain m i Hm), IH, Nat.add_0_r.
  do 2 f_equal. apply imap_ext. intros j x _. unfold compose.
  by replace (S i + j) with (i + S j) by lia.
Qed.

(** X24.  Messages without sources always render: a conversation of
    system, user and error messages, or of answers whose sources are
    missing, gives one [div] per message, in order, keyed by position,
    with the class [message] and the message's type, and no sources
    block. *)
Theorem messages_without_sources_render (msgs : list message) :
  Forall (fun m => ToBoolean (sources m) = false) msgs ->
  ChatPanel.render_messages msgs =
    Normal (imap (fun i m =>
              Elem (str "div") (str "message " ++ type m) (Some i)
                [Elem (str "div") (str "message-content") None [Expr (content m)];
                 Expr (sources m)]) msgs).
Proof.
  intros Hall. unfold ChatPanel.render_messages. by rewrite (render_plain_from msgs Hall 0).
Qed.

(** X25.  Clicking an example submits it like a typed question: when a
    request results, the example was a string, it is the [question] sent,
    one POST was added, and whatever the user had typed in the input is
    cleared.  An example that is not a string is not sent: the handler
    throws a TypeError and changes nothing. *)
Theorem example_click_submits_and_clears_input (example : value) (w : world) :
  (forall r w',
     handleExampleClick API_URL setIsLoading example w = (Normal (Some r), w') ->
     exists question,
       example = VStr question /\
       ChatPanel.body r = VObj [(str "question", VStr question)] /\
       inputValue w' = [] /\
       posts (calls w') = S (posts (calls w))) /\
  ((forall question, example <> VStr question) ->
   handleExampleClick API_URL setIsLoading example w = (Throw TypeError, w)).
Proof.
  split.
  - intros r w' Hc. destruct example as [| | | |question| |]; try discriminate.
    exists question. split; [reflexivity|].
    unfold handleExampleClick in Hc.
    change (ChatPanel.handleSubmit_start API_URL setIsLoading question w)
      with (handleSubmit_start API_URL question w) in Hc.
    destruct (decide (trim question = [])) as [Hq|Hq].
    + rewrite (handleSubmit_start_blank _ _ _ Hq) in Hc. discriminate.
    + rewrite (handleSubmit_start_nonblank _ _ _ Hq) in Hc.
      injection Hc as <- <-. simpl. split; [reflexivity|]. split; [reflexivity|].
      rewrite posts_app. unfold posts. simpl. lia.
  - intros Hns. destruct example; try reflexivity. by destruct (Hns s).
Qed.

End Props.

Lemma examples_section_shows_first_four_witness :
  exists buttons,
    List.length buttons = 4 /\
    buttons !! 3 = Some (Elem (str "button") (str "example-button") (Some 3)
                           [Expr (VStr (str "Which services run on App-Server?"))]).
Proof.
  destruct (@examples_section_shows_first_four example_engine five_examples welcome)
    as [buttons [_ [Hlen Hlk]]].
  - discriminate.
  - exists buttons. split; [exact Hlen|]. apply (Hlk 3); [lia | reflexivity].
Defined.

Lemma examples_hidden_after_first_question_witness :
  @render_examples example_engine (VArr five_examples)
    (messages (handleSubmit_start (str "http://localhost:8000") (str "hi")
                 (setMessages (fun _ => [welcome]) (ui initial)).2).2)
    = Normal (Expr (VBool false)) /\
  @render_examples example_engine
    (VObj [(str "length", VObj [(str "toString", VNum 1%float)])])
    (messages (handleSubmit_start (str "http://localhost:8000") (str "hi")
                 (setMessages (fun _ => [welcome]) (ui initial)).2).2)
    = Throw TypeError.
Proof.
  split.
  - destruct (@examples_hidden_after_first_question example_engine
                (str "http://localhost:8000") (VArr five_examples) (str "hi")
                (setMessages (fun _ => [welcome]) (ui initial)).2)
      as [Hsent _]; [discriminate | discriminate |].
    apply (Hsent (LenNat 5) true); reflexivity.
  - destruct (@examples_hidden_after_first_question example_engine
                (str "http://localhost:8000")
                (VObj [(str "length", VObj [(str "toString", VNum 1%float)])]) (str "hi")
                (setMessages (fun _ => [welcome]) (ui initial)).2)
      as [_ [_ [Hthrow _]]]; [discriminate | discriminate |].
    apply Hthrow. right. eexists. split; reflexivity.
Defined.

Lemma examples_load_outcomes_witness :
  load_examples (Resolved (VObj [(str "data", VObj [(str "items", VArr [])])])) (VArr [])
    = (VUndef, None) /\
  @render_examples example_engine VUndef [welcome] = Throw TypeError.
Proof.
  destruct (@examples_load_outcomes example_engine (VArr [])) as [_ [_ Hstored]].
  destruct (Hstored (VObj [(str "data", VObj [(str "items", VArr [])])]) eq_refl eq_refl)
    as [Hload Hthrow].
  split; [exact Hload|]. apply Hthrow. reflexivity.
Defined.

Lemma null_source_breaks_message_list_witness :
  @ChatPanel.render_messages example_engine
    [welcome;
     {| type := str "assistant"; content := VStr (str "ok");
        sources := VArr [VObj [(str "name", VStr (str "DB-Server"))]; VNull] |}]
    = Throw TypeError.
Proof.
  apply (@null_source_breaks_message_list example_engine [welcome] []
           {| type := str "assistant"; content := VStr (str "ok");
              sources := VArr [VObj [(str "name", VStr (str "DB-Server"))]; VNull] |}
           [VObj [(str "name", VStr (str "DB-Server"))]] [] VNull);
    reflexivity.
Defined.

Lemma messages_without_sources_render_witness :
  exists rendered,
    @ChatPanel.render_messages example_engine
      [welcome; {| type := str "user"; content := VStr (str "hi"); sources := VUndef |}]
      = Normal rendered /\
    List.length rendered = 2.
Proof.
  eexists. split.
  - apply (@messages_without_sources_render example_engine
             [welcome;
              {| type := str "user"; content := VStr (str "hi"); sources := VUndef |}]).
    repeat constructor.
  - reflexivity.
Defined.

Lemma example_click_submits_and_clears_input_witness :
  handleExampleClick (str "http://localhost:8000") setIsLoading (VNum 7%float) (ui initial)
    = (Throw TypeError, ui initial).
Proof.
  apply (example_click_submits_and_clears_input (str "http://localhost:8000")
           (VNum 7%float) (ui initial)).
  intros question. discriminate.
Defined.

End Controls.
